(** * interpoker: the five-card hand classifier

    A shallow embedding of [src/poker/js/evaluatePokerHand.js] and the
    properties its specification states about it.

    Modelling choices.
    - A card's [rank] is a JavaScript number holding an integer: [Z].
      Nothing in the code restricts it to 1..13.
    - A card's [suit] is a JavaScript string, modelled as a [string];
      [toLowerCase] folds the letters A..Z and leaves every other
      character alone, which is what the built-in does on ASCII strings.
      The built-in also folds the letters outside ASCII; the suit check
      is therefore given a second time with the built-in as a parameter
      ([isFlushWith]).
    - A JavaScript array is a [list]; reading an index gives an [option]
      where [None] stands for [undefined].
    - [Map] and [Set] keep insertion order, so they are association lists
      and lists without repetition, updated the way the engine does.
    - Every name bound by [const] or [let] in the function body is a
      definition of the same name taking the hand as its argument. *)

From Stdlib Require Import String Ascii.
From Stdlib Require Import ZArith List Bool Lia Arith.
From Stdlib Require Import Sorting.Permutation Sorting.Sorted.
Import ListNotations.

Local Open Scope string_scope.
Local Open Scope list_scope.
Local Open Scope Z_scope.

(** ** Data model *)

Record Card : Type := mkCard { rank : Z; suit : string }.

Definition Hand : Type := list Card.

(** ** JavaScript built-ins used by the function *)

(** [String.prototype.toLowerCase], on ASCII. *)
Definition isUpperAscii (c : ascii) : bool :=
  (65 <=? nat_of_ascii c)%nat && (nat_of_ascii c <=? 90)%nat.

Definition toLowerAscii (c : ascii) : ascii :=
  if isUpperAscii c then ascii_of_nat (nat_of_ascii c + 32) else c.

Fixpoint toLowerCase (s : string) : string :=
  match s with
  | EmptyString => EmptyString
  | String c s' => String (toLowerAscii c) (toLowerCase s')
  end.

(** [x === n] for a possibly undefined number [x]. *)
Definition strict_eq (x y : option Z) : bool :=
  match x, y with
  | Some a, Some b => a =? b
  | None, None => true
  | _, _ => false
  end.

(** [x === s] for a possibly undefined string [x]. *)
Definition strict_eq_str (x y : option string) : bool :=
  match x, y with
  | Some a, Some b => String.eqb a b
  | None, None => true
  | _, _ => false
  end.

(** [Array.prototype.sort(cmp)]: a stable sort that puts [a] before [b]
    when [cmp a b <= 0].  With a consistent comparator the result does not
    depend on the algorithm; insertion from the right is the stable one. *)
Fixpoint sort_insert (cmp : Z -> Z -> Z) (x : Z) (l : list Z) : list Z :=
  match l with
  | [] => [x]
  | y :: l' => if cmp x y <=? 0 then x :: y :: l' else y :: sort_insert cmp x l'
  end.

Definition Array_sort (cmp : Z -> Z -> Z) (l : list Z) : list Z :=
  fold_right (sort_insert cmp) [] l.

(** The two comparators of the source: [(a, b) => a - b], [(a, b) => b - a]. *)
Definition ascending (a b : Z) : Z := a - b.
Definition descending (a b : Z) : Z := b - a.

(** [Map]: entries in insertion order; [set] on a present key keeps its
    position. *)
Definition JsMap : Type := list (Z * Z).

Fixpoint Map_get (m : JsMap) (k : Z) : option Z :=
  match m with
  | [] => None
  | (k', v) :: m' => if k' =? k then Some v else Map_get m' k
  end.

Fixpoint Map_set (m : JsMap) (k v : Z) : JsMap :=
  match m with
  | [] => [(k, v)]
  | (k', v') :: m' =>
      if k' =? k then (k', v) :: m' else (k', v') :: Map_set m' k v
  end.

Definition Map_values (m : JsMap) : list Z := map snd m.

(** [x || 0]: [undefined] and [0] are falsy. *)
Definition or_zero (x : option Z) : Z :=
  match x with
  | Some v => if v =? 0 then 0 else v
  | None => 0
  end.

(** [new Set(arr)] spread back into an array: first occurrences, in order. *)
Definition Set_add (s : list Z) (x : Z) : list Z :=
  if existsb (Z.eqb x) s then s else s ++ [x].

Definition Set_of (l : list Z) : list Z := fold_left Set_add l [].

(** ** The function body, binding by binding *)

Definition ranks (hand : Hand) : list Z := map rank hand.

Definition suits (hand : Hand) : list string :=
  map (fun card => toLowerCase (suit card)) hand.

Definition rankCounts (hand : Hand) : JsMap :=
  fold_left
    (fun m rank => Map_set m rank (or_zero (Map_get m rank) + 1))
    (ranks hand) [].

Definition descendingOrder (hand : Hand) : list Z :=
  Array_sort descending (Map_values (rankCounts hand)).

Definition numPairs (hand : Hand) : nat :=
  length (filter (fun value => value =? 2) (Map_values (rankCounts hand))).

Definition hasThree (hand : Hand) : bool :=
  strict_eq (nth_error (descendingOrder hand) 0) (Some 3).

Definition hasFour (hand : Hand) : bool :=
  strict_eq (nth_error (descendingOrder hand) 0) (Some 4).

Definition isFlush (hand : Hand) : bool :=
  forallb (fun suit => strict_eq_str (Some suit) (nth_error (suits hand) 0))
          (suits hand).

Definition aceHigh (rank : Z) : Z := if rank =? 1 then 14 else rank.

Definition ranksAceHigh (hand : Hand) : list Z :=
  Array_sort ascending (map aceHigh (ranks hand)).

Definition uniqueAceHigh (hand : Hand) : list Z := Set_of (ranksAceHigh hand).

(** The inner function [isConsecutive]; the loop runs [i] from 1 to
    [length - 1] and leaves with [false] at the first gap that is not 1.
    Both indices are in range, so the default of [nth] is never read. *)
Definition isConsecutive (sortedRanks : list Z) : bool :=
  if negb (length sortedRanks =? 5)%nat then false
  else
    forallb
      (fun i => nth i sortedRanks 0 - nth (i - 1) sortedRanks 0 =? 1)
      (seq 1 (length sortedRanks - 1)).

Definition sortedCards (hand : Hand) : list Z :=
  Array_sort ascending (ranks hand).

Definition wheelPattern : list Z := [1; 2; 3; 4; 5].

(** The loop over [sortedCards]: the flag starts [true] and the first
    index where the two arrays differ clears it and breaks.  Past the end
    of [wheelPattern] the right-hand side is [undefined]. *)
Definition wheelStraight (hand : Hand) : bool :=
  forallb
    (fun i => strict_eq (nth_error (sortedCards hand) i)
                        (nth_error wheelPattern i))
    (seq 0 (length (sortedCards hand))).

Definition isStraight (hand : Hand) : bool :=
  ((length (uniqueAceHigh hand) =? 5)%nat && isConsecutive (uniqueAceHigh hand))
  || wheelStraight hand.

Definition straightHigh (hand : Hand) : option Z :=
  if wheelStraight hand then Some 5 else nth_error (ranksAceHigh hand) 4.

Definition evaluatePokerHand (hand : Hand) : string :=
  if isStraight hand && isFlush hand then
    if strict_eq (straightHigh hand) (Some 14)
       && strict_eq (nth_error (ranksAceHigh hand) 0) (Some 10)
    then "royalflush"
    else "straightflush"
  else if hasFour hand then "fourofakind"
  else if hasThree hand && (numPairs hand =? 1)%nat then "fullhouse"
  else if isFlush hand then "flush"
  else if isStraight hand then "straight"
  else if hasThree hand then "threeofakind"
  else if (numPairs hand =? 2)%nat then "twopair"
  else if (numPairs hand =? 1)%nat then "pair"
  else "highcard".

(** ** The function run against a store of objects

    The same body once more, now with every array, [Map] and [Set] it
    creates living in a store, so that in-place updates ([sort], [set])
    and the objects left behind by a call are visible.  The caller's hand
    is an object of the store; a reference that does not hold the expected
    kind of object raises, which is [None]. *)

Inductive JsObject : Type :=
| CardArray (a : list Card)
| NumberArray (a : list Z)
| StringArray (a : list string)
| MapObject (m : JsMap)
| SetObject (s : list Z).

Definition Store : Type := list JsObject.
Definition Ref : Type := nat.

Definition Exec (A : Type) : Type := Store -> option (A * Store).

Definition ret {A} (x : A) : Exec A := fun st => Some (x, st).

Definition bind {A B} (m : Exec A) (f : A -> Exec B) : Exec B :=
  fun st => match m st with
            | Some (x, st') => f x st'
            | None => None
            end.

Definition raise {A} : Exec A := fun _ => None.

Notation "x <- m ;; k" := (bind m (fun x => k))
  (at level 61, m at next level, right associativity).
Notation "m ;;; k" := (bind m (fun _ => k))
  (at level 61, right associativity).

Fixpoint update {A} (l : list A) (i : nat) (x : A) : list A :=
  match l, i with
  | [], _ => []
  | _ :: t, O => x :: t
  | h :: t, S i' => h :: update t i' x
  end.

Definition alloc (o : JsObject) : Exec Ref :=
  fun st => Some (length st, st ++ [o]).

Definition load (r : Ref) : Exec JsObject :=
  fun st => match nth_error st r with
            | Some o => Some (o, st)
            | None => None
            end.

Definition store (r : Ref) (o : JsObject) : Exec unit :=
  fun st => match nth_error st r with
            | Some _ => Some (tt, update st r o)
            | None => None
            end.

Definition loadCards (r : Ref) : Exec (list Card) :=
  o <- load r ;; match o with CardArray a => ret a | _ => raise end.

Definition loadNumbers (r : Ref) : Exec (list Z) :=
  o <- load r ;; match o with NumberArray a => ret a | _ => raise end.

Definition loadStrings (r : Ref) : Exec (list string) :=
  o <- load r ;; match o with StringArray a => ret a | _ => raise end.

Definition loadMap (r : Ref) : Exec JsMap :=
  o <- load r ;; match o with MapObject m => ret m | _ => raise end.

Definition loadSet (r : Ref) : Exec (list Z) :=
  o <- load r ;; match o with SetObject s => ret s | _ => raise end.

(** [for (const x of arr) body]: the body does not touch [arr] here. *)
Fixpoint forOf (l : list Z) (body : Z -> Exec unit) : Exec unit :=
  match l with
  | [] => ret tt
  | x :: l' => body x ;;; forOf l' body
  end.

(** [arr.sort(cmp)] sorts the object in place and returns it. *)
Definition sortInPlace (r : Ref) (cmp : Z -> Z -> Z) : Exec Ref :=
  a <- loadNumbers r ;;
  store r (NumberArray (Array_sort cmp a)) ;;;
  ret r.

(** [[...m.values()]] *)
Definition spreadValues (r : Ref) : Exec Ref :=
  m <- loadMap r ;; alloc (NumberArray (Map_values m)).

(** The body of the loop over [ranks]:
    [rankCounts.set(rank, (rankCounts.get(rank) || 0) + 1)]. *)
Definition countInto (rankCounts : Ref) (rank : Z) : Exec unit :=
  old <- (m <- loadMap rankCounts ;; ret (Map_get m rank)) ;;
  m <- loadMap rankCounts ;;
  store rankCounts (MapObject (Map_set m rank (or_zero old + 1))).

Definition evaluatePokerHandM (hand : Ref) : Exec string :=
  ranks <- (cards <- loadCards hand ;; alloc (NumberArray (map rank cards))) ;;
  suits <- (cards <- loadCards hand ;;
            alloc (StringArray (map (fun card => toLowerCase (suit card)) cards))) ;;
  rankCounts <- alloc (MapObject []) ;;
  (l <- loadNumbers ranks ;;
   forOf l (countInto rankCounts)) ;;;
  descendingOrder <- (values <- spreadValues rankCounts ;;
                      sortInPlace values descending) ;;
  numPairs <- (values <- spreadValues rankCounts ;;
               a <- loadNumbers values ;;
               twos <- alloc (NumberArray (filter (fun value => value =? 2) a)) ;;
               b <- loadNumbers twos ;;
               ret (length b)) ;;
  hasThree <- (a <- loadNumbers descendingOrder ;;
               ret (strict_eq (nth_error a 0) (Some 3))) ;;
  hasFour <- (a <- loadNumbers descendingOrder ;;
              ret (strict_eq (nth_error a 0) (Some 4))) ;;
  isFlush <- (a <- loadStrings suits ;;
              ret (forallb (fun suit => strict_eq_str (Some suit) (nth_error a 0)) a)) ;;
  ranksAceHigh <- (a <- loadNumbers ranks ;;
                   mapped <- alloc (NumberArray (map aceHigh a)) ;;
                   sortInPlace mapped ascending) ;;
  uniqueAceHigh <- (a <- loadNumbers ranksAceHigh ;;
                    set <- alloc (SetObject (Set_of a)) ;;
                    s <- loadSet set ;;
                    alloc (NumberArray s)) ;;
  sortedCards <- (a <- loadNumbers ranks ;;
                  copy <- alloc (NumberArray a) ;;
                  sortInPlace copy ascending) ;;
  wheelPattern <- alloc (NumberArray [1; 2; 3; 4; 5]) ;;
  wheelStraight <- (a <- loadNumbers sortedCards ;;
                    p <- loadNumbers wheelPattern ;;
                    ret (forallb
                           (fun i => strict_eq (nth_error a i) (nth_error p i))
                           (seq 0 (length a)))) ;;
  isStraight <- (u <- loadNumbers uniqueAceHigh ;;
                 ret (((length u =? 5)%nat && isConsecutive u) || wheelStraight)) ;;
  straightHigh <- (if wheelStraight : bool then ret (Some 5)
                   else a <- loadNumbers ranksAceHigh ;; ret (nth_error a 4)) ;;
  if isStraight && isFlush then
    lowest <- (a <- loadNumbers ranksAceHigh ;; ret (nth_error a 0)) ;;
    if strict_eq straightHigh (Some 14) && strict_eq lowest (Some 10)
    then ret "royalflush"
    else ret "straightflush"
  else if hasFour then ret "fourofakind"
  else if hasThree && (numPairs =? 1)%nat then ret "fullhouse"
  else if isFlush then ret "flush"
  else if isStraight then ret "straight"
  else if hasThree then ret "threeofakind"
  else if (numPairs =? 2)%nat then ret "twopair"
  else if (numPairs =? 1)%nat then ret "pair"
  else ret "highcard".

(** The objects a call leaves in the store, in allocation order. *)
Definition allocated (cards : list Card) : Store :=
  [ NumberArray (ranks cards);
    StringArray (suits cards);
    MapObject (rankCounts cards);
    NumberArray (descendingOrder cards);
    NumberArray (Map_values (rankCounts cards));
    NumberArray (filter (fun value => value =? 2) (Map_values (rankCounts cards)));
    NumberArray (ranksAceHigh cards);
    SetObject (uniqueAceHigh cards);
    NumberArray (uniqueAceHigh cards);
    NumberArray (sortedCards cards);
    NumberArray wheelPattern ].

(** ** Vocabulary of the specification

    The notions the specification uses to talk about the function, each
    defined on its own terms so that the function can be compared with
    them. *)

(** [a] may stand before [b] in an array sorted with [cmp]. *)
Definition before (cmp : Z -> Z -> Z) (a b : Z) : Prop := cmp a b <= 0.

(** The number of times [k] occurs in an array, as a JavaScript number. *)
Definition occurrences (l : list Z) (k : Z) : Z :=
  Z.of_nat (count_occ Z.eq_dec l k).

Definition Map_keys (m : JsMap) : list Z := map fst m.

Definition sum_list (l : list Z) : Z := fold_right Z.add 0 l.

(** One turn of the [for ... of] loop. *)
Definition countRank (m : JsMap) (rank : Z) : JsMap :=
  Map_set m rank (or_zero (Map_get m rank) + 1).

Definition is_max (m : Z) (l : list Z) : Prop :=
  In m l /\ forall x, In x l -> x <= m.

Definition is_min (m : Z) (l : list Z) : Prop :=
  In m l /\ forall x, In x l -> m <= x.

(** Two characters that are equal or are the two cases of one letter. *)
Definition same_letter (a b : ascii) : bool :=
  Ascii.eqb a b
  || (isUpperAscii a && Ascii.eqb b (toLowerAscii a))
  || (isUpperAscii b && Ascii.eqb a (toLowerAscii b)).

(** Two strings of one length whose characters agree up to case. *)
Fixpoint equalsIgnoreCase (s t : string) : bool :=
  match s, t with
  | EmptyString, EmptyString => true
  | String a s', String b t' => same_letter a b && equalsIgnoreCase s' t'
  | _, _ => false
  end.

(** All suits of the hand are equal after lowercasing. *)
Definition sameSuit (hand : Hand) : Prop :=
  forall c d, In c hand -> In d hand ->
    toLowerCase (suit c) = toLowerCase (suit d).

(** The outcome of the first condition: royal flush or straight flush. *)
Definition straightFlushKind (hand : Hand) : string :=
  if strict_eq (straightHigh hand) (Some 14)
     && strict_eq (nth_error (ranksAceHigh hand) 0) (Some 10)
  then "royalflush" else "straightflush".

(** The nine conditions with their categories, strongest first. *)
Definition priorityOrder (hand : Hand) : list (bool * string) :=
  [ (isStraight hand && isFlush hand, straightFlushKind hand);
    (hasFour hand, "fourofakind");
    (hasThree hand && (numPairs hand =? 1)%nat, "fullhouse");
    (isFlush hand, "flush");
    (isStraight hand, "straight");
    (hasThree hand, "threeofakind");
    ((numPairs hand =? 2)%nat, "twopair");
    ((numPairs hand =? 1)%nat, "pair");
    (true, "highcard") ].

Fixpoint firstMatch (conditions : list (bool * string)) : option string :=
  match conditions with
  | [] => None
  | (true, category) :: _ => Some category
  | (false, _) :: rest => firstMatch rest
  end.

Definition categories : list string :=
  [ "highcard"; "pair"; "twopair"; "threeofakind"; "straight"; "flush";
    "fullhouse"; "fourofakind"; "straightflush"; "royalflush" ].

Definition aceHighPath (hand : Hand) : Prop :=
  let deduplicated := Set_of (Array_sort ascending (map aceHigh (ranks hand))) in
  length deduplicated = 5%nat /\
  forall i, (S i < length deduplicated)%nat ->
    nth (S i) deduplicated 0 - nth i deduplicated 0 = 1.

Definition wheelPath (hand : Hand) : Prop :=
  Array_sort ascending (ranks hand) = [1; 2; 3; 4; 5].

(** The four suits of the card type, and what makes two cards the same. *)
Definition recognizedSuits : list string := ["club"; "spade"; "diamond"; "heart"].

(** A card as the classifier reads it: rank and lowercased suit. *)
Definition cardKey (card : Card) : Z * string :=
  (rank card, toLowerCase (suit card)).

Definition countOf (n : Z) (l : list Z) : nat :=
  length (filter (fun value => value =? n) l).

(** ** Sample hands of the specification *)

Definition wheel_mixed : Hand :=
  [mkCard 1 "club"; mkCard 2 "diamond"; mkCard 3 "spade";
   mkCard 4 "heart"; mkCard 5 "club"].

Definition wheel_clubs : Hand :=
  [mkCard 1 "club"; mkCard 2 "club"; mkCard 3 "club";
   mkCard 4 "club"; mkCard 5 "club"].

Definition royal_spades : Hand :=
  [mkCard 10 "spade"; mkCard 11 "spade"; mkCard 12 "spade";
   mkCard 13 "spade"; mkCard 1 "spade"].

Definition five_sevens : Hand :=
  [mkCard 7 "club"; mkCard 7 "spade"; mkCard 7 "diamond";
   mkCard 7 "heart"; mkCard 7 "star"].

Definition mixed_case_clubs : Hand :=
  [mkCard 2 "Club"; mkCard 5 "club"; mkCard 9 "CLUB";
   mkCard 11 "cLuB"; mkCard 13 "club"].

Definition malformed_hand : Hand :=
  [mkCard 0 "joker"; mkCard 99 "heart"; mkCard (-3) "Club";
   mkCard 99 "heart"; mkCard 14 "clubs"].

Definition wheel_unknown_suits : Hand :=
  [mkCard 5 "x"; mkCard 4 "y"; mkCard 3 "club";
   mkCard 2 "Z"; mkCard 1 "heart"].

(** ** Further vocabulary: the hand seen through its ranks *)

(** Some rank is held by exactly [n] cards of the hand. *)
Definition hasRankCount (hand : Hand) (n : Z) : Prop :=
  exists k, occurrences (ranks hand) k = n.

(** Two different ranks are each held by exactly two cards. *)
Definition twoPairRanks (hand : Hand) : Prop :=
  exists a b, a <> b /\
    occurrences (ranks hand) a = 2 /\ occurrences (ranks hand) b = 2.

(** The ranks form a run of five with the ace high, or the wheel. *)
Definition straightShape (hand : Hand) : Prop :=
  (exists a, Permutation (map aceHigh (ranks hand)) [a; a + 1; a + 2; a + 3; a + 4])
  \/ Permutation (ranks hand) [1; 2; 3; 4; 5].

(** Ten, jack, queen, king and ace, the ace read as 14. *)
Definition royalRanks (hand : Hand) : Prop :=
  Permutation (map aceHigh (ranks hand)) [10; 11; 12; 13; 14].

(** Every rank is one of a real deck: 1 for the ace up to 13 for the king. *)
Definition realRanks (hand : Hand) : Prop :=
  forall card, In card hand -> 1 <= rank card <= 13.

(** The remaining sample hands of the specification. *)
Definition quad_sevens : Hand :=
  [mkCard 7 "club"; mkCard 7 "spade"; mkCard 7 "diamond";
   mkCard 7 "heart"; mkCard 2 "club"].

Definition kings_full : Hand :=
  [mkCard 13 "club"; mkCard 13 "spade"; mkCard 13 "heart";
   mkCard 5 "diamond"; mkCard 5 "club"].

Definition trip_nines : Hand :=
  [mkCard 9 "club"; mkCard 9 "spade"; mkCard 9 "heart";
   mkCard 4 "diamond"; mkCard 12 "club"].

Definition fours_and_nines : Hand :=
  [mkCard 4 "club"; mkCard 4 "spade"; mkCard 9 "heart";
   mkCard 9 "diamond"; mkCard 2 "club"].

Definition pair_of_aces : Hand :=
  [mkCard 1 "club"; mkCard 1 "spade"; mkCard 2 "heart";
   mkCard 5 "diamond"; mkCard 9 "club"].

Definition king_high : Hand :=
  [mkCard 2 "club"; mkCard 5 "spade"; mkCard 9 "heart";
   mkCard 11 "diamond"; mkCard 13 "club"].

(** ** The two straight paths in the words of the specification *)

(** "Map rank 1 to 14 (Ace high)". *)
Definition aceAsFourteen (r : Z) : Z :=
  match r with
  | 1 => 14
  | _ => r
  end.

(** [s] is [l] sorted ascending: the same values, in ascending order. *)
Definition sortedAscending (s l : list Z) : Prop :=
  Permutation s l /\ StronglySorted Z.le s.

(** [d] is the sorted list [s] deduplicated: every value of [s] once,
    still in ascending order. *)
Definition deduplicated (d s : list Z) : Prop :=
  NoDup d /\ (forall x, In x d <-> In x s) /\ StronglySorted Z.le d.

(** Each consecutive pair differs by exactly 1. *)
Definition consecutivePairs (d : list Z) : Prop :=
  forall i, (S i < length d)%nat -> nth (S i) d 0 - nth i d 0 = 1.

Definition specAceHighPath (hand : Hand) : Prop :=
  exists s d,
    sortedAscending s (map aceAsFourteen (map rank hand)) /\
    deduplicated d s /\
    length d = 5%nat /\
    consecutivePairs d.

Definition specWheelPath (hand : Hand) : Prop :=
  exists s, sortedAscending s (map rank hand) /\ s = [1; 2; 3; 4; 5].

(** ** The suit check with the built-in lowercasing as a parameter

    [String.prototype.toLowerCase] folds every letter Unicode knows, and
    its tables are not part of the repository.  Here the built-in is a
    parameter [lower]; the two bindings of the source that use it follow
    lines 27 and 47 as before. *)
Definition suitsWith (lower : string -> string) (hand : Hand) : list string :=
  map (fun card => lower (suit card)) hand.

Definition isFlushWith (lower : string -> string) (hand : Hand) : bool :=
  forallb (fun suit => strict_eq_str (Some suit) (nth_error (suitsWith lower hand) 0))
          (suitsWith lower hand).

(** A string of ASCII characters only. *)
Fixpoint asciiOnly (s : string) : bool :=
  match s with
  | EmptyString => true
  | String c s' => (nat_of_ascii c <? 128)%nat && asciiOnly s'
  end.

(** What is known of the built-in on ASCII strings: it folds A..Z to a..z
    and leaves the other characters alone. *)
Definition foldsAscii (lower : string -> string) : Prop :=
  forall s, asciiOnly s = true -> lower s = toLowerCase s.

(** The letters of the alphabet, each capital with its small form. *)
Definition capitalLetters : string := "ABCDEFGHIJKLMNOPQRSTUVWXYZ".
Definition smallLetters : string := "abcdefghijklmnopqrstuvwxyz".

Definition letterPairs : list (ascii * ascii) :=
  combine (list_ascii_of_string capitalLetters)
          (list_ascii_of_string smallLetters).

(** Two characters that are the same, or the capital and the small form
    of one letter. *)
Definition sameLetterUpToCase (a b : ascii) : bool :=
  Ascii.eqb a b
  || existsb (fun p => (Ascii.eqb a (fst p) && Ascii.eqb b (snd p))
                       || (Ascii.eqb a (snd p) && Ascii.eqb b (fst p)))
             letterPairs.

(** Two strings that agree character by character up to letter case. *)
Fixpoint equalUpToCase (s t : string) : bool :=
  match s, t with
  | EmptyString, EmptyString => true
  | String a s', String b t' => sameLetterUpToCase a b && equalUpToCase s' t'
  | _, _ => false
  end.

(** Every character, for checks by enumeration. *)
Definition allCharacters : list ascii := map ascii_of_nat (seq 0 256).

(** ** Sorting: what [Array_sort] computes *)

Lemma sort_insert_perm cmp x l : Permutation (sort_insert cmp x l) (x :: l).
Proof.
  induction l as [|y l IH]; simpl.
  - apply Permutation_refl.
  - destruct (cmp x y <=? 0).
    + apply Permutation_refl.
    + eapply perm_trans; [apply perm_skip, IH | apply perm_swap].
Qed.

Lemma Array_sort_perm cmp l : Permutation (Array_sort cmp l) l.
Proof.
  induction l as [|x l IH]; simpl.
  - constructor.
  - eapply perm_trans; [apply sort_insert_perm | now apply perm_skip].
Qed.

Lemma Array_sort_length cmp l : length (Array_sort cmp l) = length l.
Proof. apply Permutation_length, Array_sort_perm. Qed.

Lemma Array_sort_In cmp l x : In x (Array_sort cmp l) <-> In x l.
Proof.
  split; apply Permutation_in;
    [ | apply Permutation_sym ]; apply Array_sort_perm.
Qed.

(** Both comparators of the source are total orders on [Z]; the facts
    below hold for any such comparator. *)
Section Comparator.
Variable cmp : Z -> Z -> Z.
Hypothesis cmp_total : forall a b, cmp a b <= 0 \/ cmp b a <= 0.
Hypothesis cmp_trans : forall a b c, cmp a b <= 0 -> cmp b c <= 0 -> cmp a c <= 0.
Hypothesis cmp_antisym : forall a b, cmp a b <= 0 -> cmp b a <= 0 -> a = b.

Lemma sort_insert_sorted x l :
  StronglySorted (before cmp) l -> StronglySorted (before cmp) (sort_insert cmp x l).
Proof.
  induction 1 as [|y l Hs IH Hy]; simpl.
  - repeat constructor.
  - destruct (Z.leb_spec (cmp x y) 0) as [Hxy|Hxy].
    + constructor; [now constructor|].
      constructor; [exact Hxy|].
      eapply Forall_impl; [|exact Hy].
      intros z Hz. now apply cmp_trans with y.
    + constructor; [exact IH|].
      assert (Hyx : before cmp y x) by (destruct (cmp_total x y); [lia|assumption]).
      rewrite Forall_forall in *. intros z Hz.
      apply (Permutation_in _ (sort_insert_perm cmp x l)) in Hz.
      destruct Hz as [<-|Hz]; auto.
Qed.

Lemma Array_sort_sorted l : StronglySorted (before cmp) (Array_sort cmp l).
Proof.
  induction l as [|x l IH]; simpl.
  - constructor.
  - now apply sort_insert_sorted.
Qed.

Lemma sort_insert_comm x y l :
  sort_insert cmp x (sort_insert cmp y l) = sort_insert cmp y (sort_insert cmp x l).
Proof.
  induction l as [|z l IH]; simpl.
  - destruct (Z.leb_spec (cmp x y) 0) as [Hxy|Hxy],
             (Z.leb_spec (cmp y x) 0) as [Hyx|Hyx]; try reflexivity.
    + now rewrite (cmp_antisym _ _ Hxy Hyx).
    + destruct (cmp_total x y); lia.
  - destruct (Z.leb_spec (cmp y z) 0) as [Hyz|Hyz],
             (Z.leb_spec (cmp x z) 0) as [Hxz|Hxz]; simpl.
    + destruct (Z.leb_spec (cmp x y) 0) as [Hxy|Hxy],
               (Z.leb_spec (cmp y x) 0) as [Hyx|Hyx].
      * now rewrite (cmp_antisym _ _ Hxy Hyx).
      * destruct (Z.leb_spec (cmp y z) 0); [reflexivity|lia].
      * destruct (Z.leb_spec (cmp x z) 0); [reflexivity|lia].
      * destruct (cmp_total x y); lia.
    + destruct (Z.leb_spec (cmp x y) 0) as [Hxy|Hxy].
      * pose proof (cmp_trans _ _ _ Hxy Hyz). lia.
      * destruct (Z.leb_spec (cmp y z) 0); [|lia].
        destruct (Z.leb_spec (cmp x z) 0); [lia|reflexivity].
    + destruct (Z.leb_spec (cmp y x) 0) as [Hyx|Hyx].
      * pose proof (cmp_trans _ _ _ Hyx Hxz). lia.
      * destruct (Z.leb_spec (cmp x z) 0); [|lia].
        destruct (Z.leb_spec (cmp y z) 0); [lia|reflexivity].
    + destruct (Z.leb_spec (cmp x z) 0); [lia|].
      destruct (Z.leb_spec (cmp y z) 0); [lia|].
      now rewrite IH.
Qed.

(** The sorted array depends only on the multiset of the elements. *)
Lemma Array_sort_permutation l1 l2 :
  Permutation l1 l2 -> Array_sort cmp l1 = Array_sort cmp l2.
Proof.
  induction 1 as [|x l1 l2 _ IH|x y l|l1 l2 l3 _ IH1 _ IH2]; simpl.
  - reflexivity.
  - now rewrite IH.
  - apply sort_insert_comm.
  - now rewrite IH1.
Qed.

Lemma sort_insert_sorted_id x l :
  StronglySorted (before cmp) (x :: l) -> sort_insert cmp x l = x :: l.
Proof.
  intros H. inversion H as [|? ? _ Hall]; subst.
  destruct l as [|y l]; simpl; [reflexivity|].
  inversion Hall; subst.
  destruct (Z.leb_spec (cmp x y) 0); [reflexivity | unfold before in *; lia].
Qed.

Lemma Array_sort_sorted_id l :
  StronglySorted (before cmp) l -> Array_sort cmp l = l.
Proof.
  induction 1 as [|x l Hs IH Hx]; simpl; [reflexivity|].
  rewrite IH. apply sort_insert_sorted_id. now constructor.
Qed.

(** In a sorted array an earlier index holds a value that goes before. *)
Lemma sorted_nth_error l :
  StronglySorted (before cmp) l ->
  forall i j x y, (i < j)%nat ->
    nth_error l i = Some x -> nth_error l j = Some y -> before cmp x y.
Proof.
  induction 1 as [|a l Hs IH Ha]; intros i j x y Hij Hi Hj.
  - destruct i; discriminate.
  - destruct j as [|j]; [lia|]. simpl in Hj.
    destruct i as [|i]; simpl in Hi.
    + injection Hi as <-. rewrite Forall_forall in Ha.
      apply Ha. eapply nth_error_In; eassumption.
    + apply (IH i j); [lia|assumption|assumption].
Qed.
End Comparator.

Lemma ascending_total a b : ascending a b <= 0 \/ ascending b a <= 0.
Proof. unfold ascending; lia. Qed.
Lemma ascending_trans a b c :
  ascending a b <= 0 -> ascending b c <= 0 -> ascending a c <= 0.
Proof. unfold ascending; lia. Qed.
Lemma ascending_antisym a b : ascending a b <= 0 -> ascending b a <= 0 -> a = b.
Proof. unfold ascending; lia. Qed.

Lemma descending_total a b : descending a b <= 0 \/ descending b a <= 0.
Proof. unfold descending; lia. Qed.
Lemma descending_trans a b c :
  descending a b <= 0 -> descending b c <= 0 -> descending a c <= 0.
Proof. unfold descending; lia. Qed.
Lemma descending_antisym a b : descending a b <= 0 -> descending b a <= 0 -> a = b.
Proof. unfold descending; lia. Qed.

Lemma sort_ascending_perm_eq l1 l2 :
  Permutation l1 l2 -> Array_sort ascending l1 = Array_sort ascending l2.
Proof.
  apply Array_sort_permutation;
    [apply ascending_total | apply ascending_trans | apply ascending_antisym].
Qed.

Lemma sort_descending_perm_eq l1 l2 :
  Permutation l1 l2 -> Array_sort descending l1 = Array_sort descending l2.
Proof.
  apply Array_sort_permutation;
    [apply descending_total | apply descending_trans | apply descending_antisym].
Qed.

Lemma sort_ascending_le l i j x y :
  (i <= j)%nat ->
  nth_error (Array_sort ascending l) i = Some x ->
  nth_error (Array_sort ascending l) j = Some y -> x <= y.
Proof.
  intros Hij Hi Hj.
  destruct (Nat.eq_dec i j) as [->|Hne].
  - rewrite Hi in Hj. injection Hj as ->. lia.
  - assert (H : before ascending x y).
    { eapply (sorted_nth_error ascending) with (i := i) (j := j); eauto.
      - apply Array_sort_sorted; [apply ascending_total | apply ascending_trans].
      - lia. }
    unfold before, ascending in H. lia.
Qed.

(** ** The rank-to-count map *)

Lemma rankCounts_fold hand : rankCounts hand = fold_left countRank (ranks hand) [].
Proof. reflexivity. Qed.

Lemma or_zero_default x : or_zero x = match x with Some v => v | None => 0 end.
Proof.
  destruct x as [v|]; simpl; [|reflexivity].
  destruct (Z.eqb_spec v 0); congruence.
Qed.

Lemma Map_get_set m k v k' :
  Map_get (Map_set m k v) k' = if k =? k' then Some v else Map_get m k'.
Proof.
  induction m as [|[a b] m IH]; simpl.
  - reflexivity.
  - destruct (Z.eqb_spec a k) as [->|Hak]; simpl.
    + destruct (Z.eqb_spec k k'); reflexivity.
    + rewrite IH. destruct (Z.eqb_spec a k') as [->|Hak'].
      * destruct (Z.eqb_spec k k'); [congruence|reflexivity].
      * reflexivity.
Qed.

Lemma Map_get_None m k : Map_get m k = None <-> ~ In k (Map_keys m).
Proof.
  induction m as [|[a b] m IH]; simpl.
  - tauto.
  - destruct (Z.eqb_spec a k) as [->|Hak].
    + split; [discriminate | intros H; exfalso; apply H; now left].
    + rewrite IH. tauto.
Qed.

Lemma Map_keys_set m k v :
  Map_keys (Map_set m k v) =
  if existsb (Z.eqb k) (Map_keys m) then Map_keys m else Map_keys m ++ [k].
Proof.
  induction m as [|[a b] m IH]; simpl.
  - reflexivity.
  - rewrite (Z.eqb_sym k a).
    destruct (Z.eqb_spec a k) as [->|Hak]; simpl.
    + reflexivity.
    + rewrite IH. now destruct (existsb (Z.eqb k) (Map_keys m)).
Qed.

Lemma existsb_eqb_In k l : existsb (Z.eqb k) l = true <-> In k l.
Proof.
  rewrite existsb_exists. split.
  - intros [x [Hx He]]. apply Z.eqb_eq in He. now subst.
  - intros H. exists k. split; [assumption | apply Z.eqb_refl].
Qed.

Lemma Map_keys_set_In m k v x :
  In x (Map_keys (Map_set m k v)) <-> In x (Map_keys m) \/ x = k.
Proof.
  rewrite Map_keys_set.
  destruct (existsb (Z.eqb k) (Map_keys m)) eqn:E.
  - apply existsb_eqb_In in E. split; [tauto | intros [H| ->]; assumption].
  - rewrite in_app_iff. simpl. intuition congruence.
Qed.

Lemma Map_keys_set_NoDup m k v :
  NoDup (Map_keys m) -> NoDup (Map_keys (Map_set m k v)).
Proof.
  intros H. rewrite Map_keys_set.
  destruct (existsb (Z.eqb k) (Map_keys m)) eqn:E; [assumption|].
  apply NoDup_app; [assumption | repeat constructor; intros [] |].
  intros x Hx [<-|[]].
  apply existsb_eqb_In in Hx. congruence.
Qed.

Lemma sum_values_set m k v :
  sum_list (Map_values (Map_set m k v)) =
  sum_list (Map_values m) - or_zero (Map_get m k) + v.
Proof.
  rewrite or_zero_default.
  induction m as [|[a b] m IH]; simpl.
  - lia.
  - unfold Map_values in *.
    destruct (Z.eqb_spec a k); simpl; lia.
Qed.

Lemma Map_get_In m k v :
  NoDup (Map_keys m) -> (In (k, v) m <-> Map_get m k = Some v).
Proof.
  induction m as [|[a b] m IH]; simpl; intros Hnd.
  - split; [tauto | discriminate].
  - inversion Hnd as [|? ? Hna Hnd']; subst.
    destruct (Z.eqb_spec a k) as [->|Hak].
    + split.
      * intros [H|H]; [congruence|].
        exfalso. apply Hna. change k with (fst (k, v)). now apply in_map.
      * intros H. left. congruence.
    + rewrite <- (IH Hnd'). split; [intros [H|H]; [congruence|assumption] | tauto].
Qed.

(** The loop invariants: what the map holds after the ranks [l] were
    counted into [m]. *)
Lemma countRank_get m r k :
  or_zero (Map_get (countRank m r) k) =
  or_zero (Map_get m k) + (if r =? k then 1 else 0).
Proof.
  unfold countRank. rewrite Map_get_set.
  destruct (Z.eqb_spec r k) as [->|Hrk]; [|lia].
  rewrite (or_zero_default (Some _)). lia.
Qed.

Lemma fold_countRank_get l : forall m k,
  or_zero (Map_get (fold_left countRank l m) k) =
  or_zero (Map_get m k) + occurrences l k.
Proof.
  unfold occurrences.
  induction l as [|r l IH]; intros m k; simpl.
  - lia.
  - rewrite IH, countRank_get.
    destruct (Z.eq_dec r k) as [->|Hrk].
    + rewrite Z.eqb_refl. lia.
    + destruct (Z.eqb_spec r k); [congruence|lia].
Qed.

Lemma fold_countRank_keys l : forall m x,
  In x (Map_keys (fold_left countRank l m)) <-> In x (Map_keys m) \/ In x l.
Proof.
  induction l as [|r l IH]; intros m x; simpl.
  - tauto.
  - rewrite IH. unfold countRank. rewrite Map_keys_set_In. intuition congruence.
Qed.

Lemma fold_countRank_NoDup l : forall m,
  NoDup (Map_keys m) -> NoDup (Map_keys (fold_left countRank l m)).
Proof.
  induction l as [|r l IH]; intros m H; simpl; [assumption|].
  apply IH. now apply Map_keys_set_NoDup.
Qed.

Lemma fold_countRank_sum l : forall m,
  sum_list (Map_values (fold_left countRank l m)) =
  sum_list (Map_values m) + Z.of_nat (length l).
Proof.
  induction l as [|r l IH]; intros m.
  - simpl. lia.
  - cbn [fold_left length]. rewrite IH. unfold countRank.
    rewrite sum_values_set. lia.
Qed.

Lemma rankCounts_NoDup hand : NoDup (Map_keys (rankCounts hand)).
Proof. rewrite rankCounts_fold. apply fold_countRank_NoDup. constructor. Qed.

(** The map holds exactly the ranks of the hand, each with the number of
    cards of that rank. *)
Lemma rankCounts_In hand k v :
  In (k, v) (rankCounts hand) <->
  In k (ranks hand) /\ v = occurrences (ranks hand) k.
Proof.
  rewrite (Map_get_In _ _ _ (rankCounts_NoDup hand)).
  pose proof (fold_countRank_get (ranks hand) [] k) as Hget.
  pose proof (fold_countRank_keys (ranks hand) [] k) as Hkeys.
  rewrite <- rankCounts_fold in Hget, Hkeys. simpl in Hget, Hkeys.
  rewrite or_zero_default in Hget.
  destruct (Map_get (rankCounts hand) k) as [w|] eqn:E.
  - assert (Hin : In k (ranks hand)).
    { destruct (in_dec Z.eq_dec k (Map_keys (rankCounts hand))) as [Hi|Hi].
      - apply Hkeys in Hi. tauto.
      - apply Map_get_None in Hi. congruence. }
    split.
    + intros H. injection H as ->. split; [assumption|lia].
    + intros [_ ->]. f_equal. lia.
  - apply Map_get_None in E.
    split; [discriminate|]. intros [Hin _]. exfalso. apply E, Hkeys. now right.
Qed.

Lemma rankCounts_sum hand :
  sum_list (Map_values (rankCounts hand)) = Z.of_nat (length hand).
Proof.
  rewrite rankCounts_fold, fold_countRank_sum. unfold ranks.
  rewrite length_map. simpl. lia.
Qed.

Lemma occurrences_pos l k : In k l -> 1 <= occurrences l k.
Proof.
  intros H. unfold occurrences.
  apply (count_occ_In Z.eq_dec) in H. lia.
Qed.

Lemma occurrences_le_length l k : occurrences l k <= Z.of_nat (length l).
Proof.
  unfold occurrences. pose proof (count_occ_bound Z.eq_dec k l). lia.
Qed.

Lemma rankCounts_values hand v :
  In v (Map_values (rankCounts hand)) ->
  exists k, In k (ranks hand) /\ v = occurrences (ranks hand) k.
Proof.
  unfold Map_values. rewrite in_map_iff.
  intros [[k w] [Hw Hin]]. simpl in Hw. subst w.
  exists k. now apply rankCounts_In.
Qed.

(** Reordering the hand reorders the entries of the map, nothing more. *)
Lemma rankCounts_perm h1 h2 :
  Permutation (ranks h1) (ranks h2) ->
  Permutation (rankCounts h1) (rankCounts h2).
Proof.
  intros HP.
  assert (Hnd : forall h, NoDup (rankCounts h)).
  { intros h. apply (NoDup_map_inv fst). apply rankCounts_NoDup. }
  apply NoDup_Permutation; try apply Hnd.
  intros [k v]. rewrite !rankCounts_In.
  unfold occurrences. rewrite (Permutation_count_occ Z.eq_dec) in HP.
  rewrite (HP k).
  split; intros [Hin Hv]; (split; [|assumption]).
  - eapply Permutation_in; [|eassumption].
    apply (Permutation_count_occ Z.eq_dec). exact HP.
  - eapply Permutation_in; [|eassumption].
    apply Permutation_sym, (Permutation_count_occ Z.eq_dec). exact HP.
Qed.

(** ** Smallest and largest element of the sorted array *)

Lemma is_min_unique m m' l : is_min m l -> is_min m' l -> m = m'.
Proof. intros [H1 H2] [H3 H4]. specialize (H2 _ H3). specialize (H4 _ H1). lia. Qed.

Lemma sort_ascending_last l n :
  length l = S n ->
  exists m, nth_error (Array_sort ascending l) n = Some m /\ is_max m l.
Proof.
  intros Hlen.
  destruct (nth_error (Array_sort ascending l) n) as [m|] eqn:E.
  - exists m. split; [reflexivity|]. split.
    + apply (Array_sort_In ascending). eapply nth_error_In; eassumption.
    + intros x Hx. apply (Array_sort_In ascending) in Hx.
      destruct (In_nth_error _ _ Hx) as [i Hi].
      assert (i < length (Array_sort ascending l))%nat
        by (apply nth_error_Some; congruence).
      rewrite Array_sort_length in *.
      apply (sort_ascending_le l i n); [lia|assumption|assumption].
  - apply nth_error_None in E. rewrite Array_sort_length in E. lia.
Qed.

Lemma sort_ascending_first l n :
  length l = S n ->
  exists m, nth_error (Array_sort ascending l) 0 = Some m /\ is_min m l.
Proof.
  intros Hlen.
  destruct (nth_error (Array_sort ascending l) 0) as [m|] eqn:E.
  - exists m. split; [reflexivity|]. split.
    + apply (Array_sort_In ascending). eapply nth_error_In; eassumption.
    + intros x Hx. apply (Array_sort_In ascending) in Hx.
      destruct (In_nth_error _ _ Hx) as [i Hi].
      apply (sort_ascending_le l 0 i); [lia|assumption|assumption].
  - apply nth_error_None in E. rewrite Array_sort_length in E. lia.
Qed.

(** ** Deduplication through [Set] *)

Lemma fold_Set_add_length l : forall s,
  (length (fold_left Set_add l s) <= length s + length l)%nat.
Proof.
  induction l as [|x l IH]; intros s; simpl; [lia|].
  specialize (IH (Set_add s x)). unfold Set_add in *.
  destruct (existsb (Z.eqb x) s); [lia|].
  rewrite length_app in IH. simpl in IH. lia.
Qed.

Lemma fold_Set_add_full l : forall s,
  length (fold_left Set_add l s) = (length s + length l)%nat ->
  fold_left Set_add l s = s ++ l.
Proof.
  induction l as [|x l IH]; intros s H; simpl in *.
  - now rewrite app_nil_r.
  - pose proof (fold_Set_add_length l (Set_add s x)) as Hb.
    unfold Set_add in *.
    destruct (existsb (Z.eqb x) s); [lia|].
    rewrite IH; [now rewrite <- app_assoc|].
    rewrite length_app. simpl. lia.
Qed.

Lemma fold_Set_add_NoDup l : forall s,
  NoDup (s ++ l) -> fold_left Set_add l s = s ++ l.
Proof.
  induction l as [|x l IH]; intros s H; simpl.
  - now rewrite app_nil_r.
  - unfold Set_add.
    destruct (existsb (Z.eqb x) s) eqn:E.
    + apply existsb_eqb_In in E. apply NoDup_remove_2 in H.
      exfalso. apply H. apply in_or_app. now left.
    + rewrite IH; rewrite <- app_assoc; [reflexivity|exact H].
Qed.

Lemma Set_of_full l : length (Set_of l) = length l -> Set_of l = l.
Proof. intros H. apply (fold_Set_add_full l []). exact H. Qed.

Lemma Set_of_NoDup l : NoDup l -> Set_of l = l.
Proof. intros H. apply (fold_Set_add_NoDup l []). exact H. Qed.

(** ** The two straight checks on five cards *)

Lemma length5 {A} (l : list A) :
  length l = 5%nat -> exists a b c d e, l = [a; b; c; d; e].
Proof.
  destruct l as [|a [|b [|c [|d [|e [|f l]]]]]]; try discriminate.
  intros _. now exists a, b, c, d, e.
Qed.

Lemma isConsecutive_five a b c d e :
  isConsecutive [a; b; c; d; e] = true <->
  b - a = 1 /\ c - b = 1 /\ d - c = 1 /\ e - d = 1.
Proof.
  unfold isConsecutive. simpl.
  rewrite !andb_true_iff, !Z.eqb_eq. tauto.
Qed.

Lemma wheelStraight_five hand :
  length hand = 5%nat ->
  (wheelStraight hand = true <-> sortedCards hand = [1; 2; 3; 4; 5]).
Proof.
  intros Hlen. unfold wheelStraight.
  assert (H5 : length (sortedCards hand) = 5%nat).
  { unfold sortedCards, ranks. now rewrite Array_sort_length, length_map. }
  destruct (length5 _ H5) as (a & b & c & d & e & ->).
  simpl. rewrite !andb_true_iff, !Z.eqb_eq.
  split.
  - intros (-> & -> & -> & -> & -> & _). reflexivity.
  - intros H. injection H as -> -> -> -> ->. tauto.
Qed.

Lemma ranksAceHigh_length hand : length (ranksAceHigh hand) = length hand.
Proof. unfold ranksAceHigh, ranks. now rewrite Array_sort_length, !length_map. Qed.

Lemma sorted_five a :
  StronglySorted (before ascending) [a; a + 1; a + 2; a + 3; a + 4].
Proof.
  repeat (constructor; [|repeat (constructor; try (unfold before, ascending; lia))]).
  constructor.
Qed.

Lemma NoDup_five a : NoDup [a; a + 1; a + 2; a + 3; a + 4].
Proof.
  repeat (constructor; [simpl; lia|]). constructor.
Qed.

(** ** Suits: comparison up to letter case *)

Lemma nat_of_ascii_inj a b : nat_of_ascii a = nat_of_ascii b -> a = b.
Proof.
  intros H. rewrite <- (ascii_nat_embedding a), <- (ascii_nat_embedding b).
  now rewrite H.
Qed.

Lemma nat_of_toLowerAscii a :
  nat_of_ascii (toLowerAscii a) =
  if isUpperAscii a then (nat_of_ascii a + 32)%nat else nat_of_ascii a.
Proof.
  unfold toLowerAscii. destruct (isUpperAscii a) eqn:E; [|reflexivity].
  apply nat_ascii_embedding.
  unfold isUpperAscii in E. apply andb_true_iff in E as [_ E].
  apply Nat.leb_le in E. lia.
Qed.

Lemma same_letter_spec a b :
  same_letter a b = true <-> toLowerAscii a = toLowerAscii b.
Proof.
  unfold same_letter.
  rewrite !orb_true_iff, !andb_true_iff, !Ascii.eqb_eq.
  assert (Hinj : forall x y : ascii, x = y <-> nat_of_ascii x = nat_of_ascii y).
  { intros x y. split; [now intros ->| apply nat_of_ascii_inj]. }
  rewrite !Hinj, !nat_of_toLowerAscii.
  unfold isUpperAscii.
  destruct (Nat.leb_spec 65 (nat_of_ascii a)), (Nat.leb_spec (nat_of_ascii a) 90),
           (Nat.leb_spec 65 (nat_of_ascii b)), (Nat.leb_spec (nat_of_ascii b) 90);
    simpl; intuition (try discriminate; try lia).
Qed.

Lemma equalsIgnoreCase_spec s : forall t,
  equalsIgnoreCase s t = true <-> toLowerCase s = toLowerCase t.
Proof.
  induction s as [|a s IH]; intros [|b t]; simpl;
    try (split; [discriminate | discriminate]); [tauto|].
  rewrite andb_true_iff, same_letter_spec, IH.
  split.
  - intros [-> ->]. reflexivity.
  - intros H. injection H as H1 H2. auto.
Qed.

Lemma isFlush_first hand first :
  nth_error hand 0 = Some first ->
  (isFlush hand = true <->
   forall card, In card hand -> equalsIgnoreCase (suit card) (suit first) = true).
Proof.
  intros Hfirst. unfold isFlush, suits.
  rewrite forallb_forall.
  destruct hand as [|c0 hand]; [discriminate|].
  simpl in Hfirst. injection Hfirst as ->.
  cbn [map nth_error].
  split.
  - intros H card Hin. apply equalsIgnoreCase_spec.
    apply String.eqb_eq. apply (H (toLowerCase (suit card))).
    change (toLowerCase (suit card))
      with ((fun card => toLowerCase (suit card)) card).
    apply (in_map (fun card => toLowerCase (suit card)) (first :: hand)), Hin.
  - intros H s Hs.
    change (toLowerCase (suit first) :: map (fun card => toLowerCase (suit card)) hand)
      with (map (fun card => toLowerCase (suit card)) (first :: hand)) in Hs.
    apply in_map_iff in Hs as [card [<- Hin]].
    simpl. apply String.eqb_eq, equalsIgnoreCase_spec, H, Hin.
Qed.

Lemma isFlush_sameSuit hand : isFlush hand = true <-> sameSuit hand.
Proof.
  destruct (nth_error hand 0) as [first|] eqn:Hf.
  - rewrite (isFlush_first _ _ Hf). unfold sameSuit. split.
    + intros H c d Hc Hd.
      pose proof (H c Hc) as H1. pose proof (H d Hd) as H2.
      apply equalsIgnoreCase_spec in H1, H2. congruence.
    + intros H card Hin. apply equalsIgnoreCase_spec, H; [assumption|].
      eapply nth_error_In; eassumption.
  - destruct hand; [|discriminate].
    split; [intros _ ? ? []|reflexivity].
Qed.

Lemma isFlush_perm h1 h2 : Permutation h1 h2 -> isFlush h1 = isFlush h2.
Proof.
  intros HP.
  assert (H : forall a b, Permutation a b -> isFlush a = true -> isFlush b = true).
  { intros a b Hab. rewrite !isFlush_sameSuit. unfold sameSuit.
    intros H c d Hc Hd.
    apply H; eapply Permutation_in; try eassumption; now apply Permutation_sym. }
  destruct (isFlush h1) eqn:E1, (isFlush h2) eqn:E2; try reflexivity.
  - apply (H _ _ HP) in E1. congruence.
  - apply (H _ _ (Permutation_sym HP)) in E2. congruence.
Qed.

(** ** The classification depends on the rank multiset and on [isFlush] *)

Lemma filter_length_perm {A} (f : A -> bool) l1 l2 :
  Permutation l1 l2 -> length (filter f l1) = length (filter f l2).
Proof.
  induction 1 as [|x l1 l2 _ IH|x y l|l1 l2 l3 _ IH1 _ IH2]; simpl.
  - reflexivity.
  - destruct (f x); simpl; congruence.
  - destruct (f x), (f y); reflexivity.
  - congruence.
Qed.

Lemma Map_values_perm h1 h2 :
  Permutation (ranks h1) (ranks h2) ->
  Permutation (Map_values (rankCounts h1)) (Map_values (rankCounts h2)).
Proof. intros H. apply Permutation_map, rankCounts_perm, H. Qed.

Lemma descendingOrder_perm h1 h2 :
  Permutation (ranks h1) (ranks h2) -> descendingOrder h1 = descendingOrder h2.
Proof. intros H. apply sort_descending_perm_eq, Map_values_perm, H. Qed.

Lemma numPairs_perm h1 h2 :
  Permutation (ranks h1) (ranks h2) -> numPairs h1 = numPairs h2.
Proof. intros H. apply filter_length_perm, Map_values_perm, H. Qed.

Lemma ranksAceHigh_perm h1 h2 :
  Permutation (ranks h1) (ranks h2) -> ranksAceHigh h1 = ranksAceHigh h2.
Proof. intros H. apply sort_ascending_perm_eq, Permutation_map, H. Qed.

Lemma sortedCards_perm h1 h2 :
  Permutation (ranks h1) (ranks h2) -> sortedCards h1 = sortedCards h2.
Proof. intros H. apply sort_ascending_perm_eq, H. Qed.

Lemma evaluate_ranks_flush h1 h2 :
  Permutation (ranks h1) (ranks h2) ->
  isFlush h1 = isFlush h2 ->
  evaluatePokerHand h1 = evaluatePokerHand h2.
Proof.
  intros HP HF.
  unfold evaluatePokerHand, straightHigh, isStraight, hasFour, hasThree,
    wheelStraight, uniqueAceHigh.
  rewrite (descendingOrder_perm _ _ HP), (numPairs_perm _ _ HP),
    (ranksAceHigh_perm _ _ HP), (sortedCards_perm _ _ HP), HF.
  reflexivity.
Qed.

(** ** The resolver *)

Lemma evaluate_firstMatch hand :
  firstMatch (priorityOrder hand) = Some (evaluatePokerHand hand).
Proof.
  unfold priorityOrder, evaluatePokerHand, straightFlushKind. simpl.
  destruct (isStraight hand && isFlush hand); [reflexivity|].
  destruct (hasFour hand); [reflexivity|].
  destruct (hasThree hand && (numPairs hand =? 1)%nat); [reflexivity|].
  destruct (isFlush hand); [reflexivity|].
  destruct (isStraight hand); [reflexivity|].
  destruct (hasThree hand); [reflexivity|].
  destruct (numPairs hand =? 2)%nat; [reflexivity|].
  destruct (numPairs hand =? 1)%nat; reflexivity.
Qed.

Lemma evaluate_categories hand : In (evaluatePokerHand hand) categories.
Proof.
  unfold evaluatePokerHand, categories.
  repeat match goal with
         | |- In (if ?b then _ else _) _ => destruct b
         end; simpl; tauto.
Qed.

Lemma evaluate_straight_flush hand :
  isStraight hand = true -> isFlush hand = true ->
  evaluatePokerHand hand = straightFlushKind hand.
Proof.
  intros HS HF. unfold evaluatePokerHand, straightFlushKind.
  now rewrite HS, HF.
Qed.

Lemma evaluate_needs_straight hand :
  evaluatePokerHand hand = "straight" \/
  evaluatePokerHand hand = "straightflush" \/
  evaluatePokerHand hand = "royalflush" ->
  isStraight hand = true.
Proof.
  unfold evaluatePokerHand.
  destruct (isStraight hand); [reflexivity|]. simpl.
  repeat match goal with
         | |- context [if ?b then _ else _] => destruct b
         end; intros [H|[H|H]]; discriminate.
Qed.

Lemma strict_eq_Some x n : strict_eq x (Some n) = true <-> x = Some n.
Proof.
  destruct x as [a|]; simpl.
  - rewrite Z.eqb_eq. split; congruence.
  - split; discriminate.
Qed.

(** ** Running against the store *)

Lemma nth_error_frame {A} (st fr : list A) k :
  nth_error (st ++ fr) (length st + k) = nth_error fr k.
Proof.
  rewrite nth_error_app2 by lia. f_equal. lia.
Qed.

Lemma nth_error_old {A} (st fr : list A) r o :
  nth_error st r = Some o -> nth_error (st ++ fr) r = Some o.
Proof.
  intros H. rewrite nth_error_app1; [assumption|].
  apply nth_error_Some. congruence.
Qed.

Lemma update_frame {A} (st fr : list A) k o :
  update (st ++ fr) (length st + k) o = st ++ update fr k o.
Proof.
  induction st as [|x st IH]; simpl; [reflexivity|]. now rewrite IH.
Qed.

Lemma update_same {A} (l : list A) k o :
  nth_error l k = Some o -> update l k o = l.
Proof.
  revert k. induction l as [|x l IH]; intros [|k] H; simpl in *;
    try discriminate.
  - congruence.
  - now rewrite IH.
Qed.

Lemma update_update {A} (l : list A) k a b :
  update (update l k a) k b = update l k b.
Proof.
  revert k. induction l as [|x l IH]; intros [|k]; simpl; try reflexivity.
  now rewrite IH.
Qed.

Lemma nth_error_update {A} (l : list A) k o a :
  nth_error l k = Some o -> nth_error (update l k a) k = Some a.
Proof.
  revert k. induction l as [|x l IH]; intros [|k] H; simpl in *;
    try discriminate; [reflexivity | eauto].
Qed.

Section Steps.
Context {B : Type}.
Variables (st fr : Store).

Lemma bind_assoc {A A'} (m : Exec A) (f : A -> Exec A') (g : A' -> Exec B) s :
  bind (bind m f) g s = bind m (fun x => bind (f x) g) s.
Proof. unfold bind. destruct (m s) as [[x s']|]; reflexivity. Qed.

Lemma bind_ret {A} (x : A) (f : A -> Exec B) s : bind (ret x) f s = f x s.
Proof. reflexivity. Qed.

Lemma bind_if {A} (c : bool) (m1 m2 : Exec A) (f : A -> Exec B) s :
  bind (if c then m1 else m2) f s = if c then bind m1 f s else bind m2 f s.
Proof. now destruct c. Qed.

Lemma bind_alloc o (f : Ref -> Exec B) :
  bind (alloc o) f (st ++ fr) = f (length st + length fr)%nat (st ++ (fr ++ [o])).
Proof. unfold bind, alloc. now rewrite length_app, app_assoc. Qed.

Lemma bind_loadCards_old r a (f : list Card -> Exec B) :
  nth_error st r = Some (CardArray a) ->
  bind (loadCards r) f (st ++ fr) = f a (st ++ fr).
Proof.
  intros H. unfold loadCards, bind, load.
  now rewrite (nth_error_old _ _ _ _ H).
Qed.

Lemma bind_loadNumbers k a (f : list Z -> Exec B) :
  nth_error fr k = Some (NumberArray a) ->
  bind (loadNumbers (length st + k)%nat) f (st ++ fr) = f a (st ++ fr).
Proof.
  intros H. unfold loadNumbers, bind, load. now rewrite nth_error_frame, H.
Qed.

Lemma bind_loadStrings k a (f : list string -> Exec B) :
  nth_error fr k = Some (StringArray a) ->
  bind (loadStrings (length st + k)%nat) f (st ++ fr) = f a (st ++ fr).
Proof.
  intros H. unfold loadStrings, bind, load. now rewrite nth_error_frame, H.
Qed.

Lemma bind_loadMap k m (f : JsMap -> Exec B) :
  nth_error fr k = Some (MapObject m) ->
  bind (loadMap (length st + k)%nat) f (st ++ fr) = f m (st ++ fr).
Proof.
  intros H. unfold loadMap, bind, load. now rewrite nth_error_frame, H.
Qed.

Lemma bind_loadSet k s (f : list Z -> Exec B) :
  nth_error fr k = Some (SetObject s) ->
  bind (loadSet (length st + k)%nat) f (st ++ fr) = f s (st ++ fr).
Proof.
  intros H. unfold loadSet, bind, load. now rewrite nth_error_frame, H.
Qed.

Lemma bind_store k o' o (f : unit -> Exec B) :
  nth_error fr k = Some o' ->
  bind (store (length st + k)%nat o) f (st ++ fr) = f tt (st ++ update fr k o).
Proof.
  intros H. unfold bind, store. now rewrite nth_error_frame, H, update_frame.
Qed.
End Steps.

Lemma bind_countInto {B} (st fr : Store) k m rank (f : unit -> Exec B) :
  nth_error fr k = Some (MapObject m) ->
  bind (countInto (length st + k)%nat rank) f (st ++ fr) =
  f tt (st ++ update fr k (MapObject (countRank m rank))).
Proof.
  intros H. unfold countInto.
  rewrite !bind_assoc. rewrite (bind_loadMap _ _ _ _ _ H).
  rewrite bind_ret. rewrite bind_assoc. rewrite (bind_loadMap _ _ _ _ _ H).
  now rewrite (bind_store _ _ _ _ _ _ H).
Qed.

Lemma bind_forOf_countInto {B} (st : Store) k l : forall fr m (f : unit -> Exec B),
  nth_error fr k = Some (MapObject m) ->
  bind (forOf l (countInto (length st + k)%nat)) f (st ++ fr) =
  f tt (st ++ update fr k (MapObject (fold_left countRank l m))).
Proof.
  induction l as [|rank l IH]; intros fr m f H; simpl.
  - rewrite bind_ret. now rewrite update_same.
  - rewrite bind_assoc. rewrite (bind_countInto _ _ _ _ _ _ H).
    rewrite (IH _ (countRank m rank)).
    + now rewrite update_update.
    + eapply nth_error_update; eassumption.
Qed.

Ltac step :=
  first
    [ rewrite bind_assoc
    | rewrite bind_ret
    | rewrite bind_if
    | rewrite bind_alloc
    | erewrite bind_loadCards_old by eassumption
    | erewrite bind_loadNumbers by reflexivity
    | erewrite bind_loadStrings by reflexivity
    | erewrite bind_loadMap by reflexivity
    | erewrite bind_loadSet by reflexivity
    | erewrite bind_store by reflexivity
    | erewrite bind_forOf_countInto by reflexivity ];
  cbn [length app update].

Lemma if_apply {A} (c : bool) (m1 m2 : Exec A) s :
  (if c then m1 else m2) s = if c then m1 s else m2 s.
Proof. now destruct c. Qed.

Lemma if_Some {A} (c : bool) (x y : A) (s : Store) :
  (if c then Some (x, s) else Some (y, s)) = Some (if c then x else y, s).
Proof. now destruct c. Qed.

Lemma exec_frame st hand cards :
  nth_error st hand = Some (CardArray cards) ->
  evaluatePokerHandM hand (st ++ []) =
  Some (evaluatePokerHand cards, st ++ allocated cards).
Proof.
  intros H. unfold evaluatePokerHandM, sortInPlace, spreadValues.
  repeat step.
  match goal with
  | |- (if ?b then _ else _) = _ => change b with (wheelStraight cards)
  end.
  unfold evaluatePokerHand, straightHigh, isStraight.
  destruct (wheelStraight cards);
    repeat (rewrite if_apply || step); unfold ret;
    repeat rewrite if_Some; reflexivity.
Qed.

Lemma evaluatePokerHandM_runs st hand cards :
  nth_error st hand = Some (CardArray cards) ->
  evaluatePokerHandM hand st =
  Some (evaluatePokerHand cards, st ++ allocated cards).
Proof.
  intros H. rewrite <- (app_nil_r st) at 1. now apply exec_frame.
Qed.

(** ** The two straight paths *)

Lemma consecutive_pairs_five a b c d e :
  (forall i, (S i < 5)%nat -> nth (S i) [a; b; c; d; e] 0 - nth i [a; b; c; d; e] 0 = 1)
  <-> b - a = 1 /\ c - b = 1 /\ d - c = 1 /\ e - d = 1.
Proof.
  split.
  - intros H.
    pose proof (H 0%nat ltac:(lia)). pose proof (H 1%nat ltac:(lia)).
    pose proof (H 2%nat ltac:(lia)). pose proof (H 3%nat ltac:(lia)).
    simpl in *. tauto.
  - intros (H1 & H2 & H3 & H4) i Hi.
    destruct i as [|[|[|[|i]]]]; simpl; try assumption. lia.
Qed.

Lemma aceHighPath_spec hand :
  (length (uniqueAceHigh hand) =? 5)%nat && isConsecutive (uniqueAceHigh hand) = true
  <-> aceHighPath hand.
Proof.
  unfold aceHighPath. fold (ranksAceHigh hand). fold (uniqueAceHigh hand).
  cbv zeta. rewrite andb_true_iff, Nat.eqb_eq.
  split; intros [H5 H]; (split; [exact H5|]);
    destruct (length5 _ H5) as (a & b & c & d & e & E); rewrite E in *.
  - apply consecutive_pairs_five, isConsecutive_five, H.
  - apply isConsecutive_five, consecutive_pairs_five, H.
Qed.

Lemma isStraight_spec hand :
  length hand = 5%nat ->
  (isStraight hand = true <-> aceHighPath hand \/ wheelPath hand).
Proof.
  intros Hlen. unfold isStraight. rewrite orb_true_iff.
  rewrite aceHighPath_spec, (wheelStraight_five _ Hlen). reflexivity.
Qed.

(** The same two paths without reference to sorting or deduplication. *)
Lemma aceHighPath_run hand :
  length hand = 5%nat ->
  (aceHighPath hand <->
   exists a, Permutation (map aceHigh (ranks hand)) [a; a + 1; a + 2; a + 3; a + 4]).
Proof.
  intros Hlen. rewrite <- aceHighPath_spec.
  rewrite andb_true_iff, Nat.eqb_eq. unfold uniqueAceHigh. split.
  - intros [H5 Hc].
    assert (E : Set_of (ranksAceHigh hand) = ranksAceHigh hand).
    { apply Set_of_full. now rewrite H5, ranksAceHigh_length. }
    rewrite E in *.
    destruct (length5 _ H5) as (a & b & c & d & e & E5).
    rewrite E5 in Hc. apply isConsecutive_five in Hc.
    exists a. apply Permutation_sym.
    replace [a; a + 1; a + 2; a + 3; a + 4] with (ranksAceHigh hand).
    + apply Array_sort_perm.
    + rewrite E5. repeat f_equal; lia.
  - intros [a HP].
    assert (E : ranksAceHigh hand = [a; a + 1; a + 2; a + 3; a + 4]).
    { unfold ranksAceHigh. rewrite (sort_ascending_perm_eq _ _ HP).
      apply Array_sort_sorted_id, sorted_five. }
    rewrite E, (Set_of_NoDup _ (NoDup_five a)).
    split; [reflexivity|]. apply isConsecutive_five. lia.
Qed.

Lemma wheelPath_perm hand :
  wheelPath hand <-> Permutation (ranks hand) [1; 2; 3; 4; 5].
Proof.
  unfold wheelPath. split.
  - intros H. rewrite <- H. apply Permutation_sym, Array_sort_perm.
  - intros H. rewrite (sort_ascending_perm_eq _ _ H). reflexivity.
Qed.

(** ** Bounds on the counts *)

Lemma rankCounts_values_bounds hand v :
  In v (Map_values (rankCounts hand)) -> 1 <= v <= Z.of_nat (length hand).
Proof.
  intros H. destruct (rankCounts_values _ _ H) as [k [Hk ->]].
  split; [now apply occurrences_pos|].
  pose proof (occurrences_le_length (ranks hand) k) as Hb.
  unfold ranks in Hb at 2. now rewrite length_map in Hb.
Qed.

Lemma countOf_sum n l :
  0 <= n -> Forall (fun v => 0 <= v) l -> n * Z.of_nat (countOf n l) <= sum_list l.
Proof.
  intros Hn. unfold countOf.
  induction 1 as [|v l Hv _ IH]; simpl; [lia|].
  destruct (Z.eqb_spec v n); simpl length; lia.
Qed.

Lemma occurrences_filter hand k :
  occurrences (ranks hand) k =
  Z.of_nat (length (filter (fun card => rank card =? k) hand)).
Proof.
  unfold occurrences, ranks. f_equal.
  induction hand as [|c hand IH]; simpl; [reflexivity|].
  destruct (Z.eq_dec (rank c) k) as [E|E].
  - rewrite (proj2 (Z.eqb_eq _ _) E). simpl. now rewrite IH.
  - rewrite (proj2 (Z.eqb_neq _ _) E). exact IH.
Qed.

Lemma same_rank_suits_NoDup hand k :
  NoDup (map cardKey hand) ->
  NoDup (map (fun card => toLowerCase (suit card))
             (filter (fun card => rank card =? k) hand)).
Proof.
  induction hand as [|c hand IH]; simpl; intros H; [constructor|].
  inversion H as [|? ? Hnotin Hnd]; subst.
  destruct (Z.eqb_spec (rank c) k) as [E|E]; [|now apply IH].
  simpl. constructor; [|now apply IH].
  intros Hin. apply in_map_iff in Hin as [d [Hs Hd]].
  apply filter_In in Hd as [Hd Hr]. apply Z.eqb_eq in Hr.
  apply Hnotin. apply in_map_iff. exists d. split; [|assumption].
  unfold cardKey. now rewrite Hs, Hr, E.
Qed.

Lemma occurrences_le_suits hand k :
  (forall card, In card hand -> In (toLowerCase (suit card)) recognizedSuits) ->
  NoDup (map cardKey hand) ->
  occurrences (ranks hand) k <= 4.
Proof.
  intros Hs Hnd. rewrite occurrences_filter.
  pose proof (same_rank_suits_NoDup hand k Hnd) as H.
  apply NoDup_incl_length with (l' := recognizedSuits) in H.
  - rewrite length_map in H. simpl in H. lia.
  - intros s Hin. apply in_map_iff in Hin as [d [<- Hd]].
    apply filter_In in Hd as [Hd _]. now apply Hs.
Qed.

Lemma five_sevens_NoDup : NoDup five_sevens.
Proof.
  unfold five_sevens.
  repeat (constructor; [simpl; intuition discriminate|]). constructor.
Qed.

Lemma not_sameSuit (hand : Hand) c d :
  In c hand -> In d hand ->
  toLowerCase (suit c) <> toLowerCase (suit d) -> ~ sameSuit hand.
Proof. intros Hc Hd Hne H. apply Hne, H; assumption. Qed.

(** ** The straight paths of the specification and of the code *)

Lemma aceHigh_aceAsFourteen r : aceHigh r = aceAsFourteen r.
Proof.
  unfold aceHigh, aceAsFourteen.
  destruct (Z.eqb_spec r 1) as [->|Hne]; [reflexivity|].
  destruct r as [|[p|p|]|p]; try reflexivity. congruence.
Qed.

Lemma sorted_le_before l :
  StronglySorted Z.le l <-> StronglySorted (before ascending) l.
Proof.
  split; induction 1 as [|x l Hs IH Hx]; constructor; auto;
    (eapply Forall_impl; [|exact Hx]); unfold before, ascending; intros; lia.
Qed.

(** Sorting ascending has one outcome, and [Array_sort ascending] is it. *)
Lemma sortedAscending_Array_sort s l :
  sortedAscending s l <-> s = Array_sort ascending l.
Proof.
  unfold sortedAscending. split.
  - intros [HP Hs]. apply sorted_le_before in Hs.
    rewrite <- (Array_sort_sorted_id ascending s Hs).
    now apply sort_ascending_perm_eq.
  - intros ->. split; [apply Array_sort_perm|].
    apply sorted_le_before, Array_sort_sorted;
      [apply ascending_total | apply ascending_trans].
Qed.

Lemma consecutivePairs_run d :
  length d = 5%nat -> consecutivePairs d ->
  exists a, d = [a; a + 1; a + 2; a + 3; a + 4].
Proof.
  intros H5 Hc. destruct (length5 _ H5) as (a & b & c & e & f & ->).
  unfold consecutivePairs in Hc. simpl length in Hc.
  apply consecutive_pairs_five in Hc. exists a. repeat f_equal; lia.
Qed.

Lemma specAceHighPath_run hand :
  length hand = 5%nat ->
  (specAceHighPath hand <->
   exists a, Permutation (map aceAsFourteen (map rank hand))
               [a; a + 1; a + 2; a + 3; a + 4]).
Proof.
  intros Hlen. unfold specAceHighPath. split.
  - intros (s & d & [HP Hs] & (Hnd & Hin & Hd) & H5 & Hc).
    destruct (consecutivePairs_run d H5 Hc) as [a ->].
    exists a. apply Permutation_sym.
    apply Permutation_trans with s; [|exact HP].
    apply NoDup_Permutation_bis; [exact Hnd | |].
    + apply Permutation_length in HP. rewrite HP, !length_map, Hlen. simpl. lia.
    + intros x Hx. now apply Hin.
  - intros [a HP].
    exists [a; a + 1; a + 2; a + 3; a + 4], [a; a + 1; a + 2; a + 3; a + 4].
    split; [split; [now apply Permutation_sym | apply sorted_le_before, sorted_five]|].
    split; [split; [apply NoDup_five | split; [tauto | apply sorted_le_before, sorted_five]]|].
    split; [reflexivity|].
    unfold consecutivePairs. simpl length. apply consecutive_pairs_five. lia.
Qed.

Lemma specAceHighPath_code hand :
  length hand = 5%nat -> (specAceHighPath hand <-> aceHighPath hand).
Proof.
  intros Hlen. rewrite (specAceHighPath_run _ Hlen), (aceHighPath_run _ Hlen).
  unfold ranks. rewrite (map_ext _ _ aceHigh_aceAsFourteen). reflexivity.
Qed.

Lemma specWheelPath_code hand : specWheelPath hand <-> wheelPath hand.
Proof.
  unfold specWheelPath, wheelPath, ranks. split.
  - intros (s & Hs & ->). apply sortedAscending_Array_sort in Hs. now symmetry.
  - intros H. exists [1; 2; 3; 4; 5]. split; [|reflexivity].
    apply sortedAscending_Array_sort. now symmetry.
Qed.

Lemma Set_add_NoDup s x : NoDup s -> NoDup (Set_add s x).
Proof.
  intros H. unfold Set_add.
  destruct (existsb (Z.eqb x) s) eqn:E; [assumption|].
  apply NoDup_app; [assumption | repeat constructor; intros [] |].
  intros y Hy [<-|[]]. apply existsb_eqb_In in Hy. congruence.
Qed.

Lemma fold_Set_add_distinct l : forall s,
  NoDup s -> NoDup (fold_left Set_add l s).
Proof.
  induction l as [|x l IH]; intros s H; simpl; [assumption|].
  apply IH. now apply Set_add_NoDup.
Qed.

Lemma fold_Set_add_In l x : forall s,
  In x (fold_left Set_add l s) <-> In x s \/ In x l.
Proof.
  induction l as [|y l IH]; intros s; simpl; [tauto|].
  rewrite IH. unfold Set_add.
  destruct (existsb (Z.eqb y) s) eqn:E.
  - apply existsb_eqb_In in E. intuition congruence.
  - rewrite in_app_iff. simpl. tauto.
Qed.

Lemma sorted_remove (a b : list Z) x :
  StronglySorted Z.le (a ++ x :: b) -> StronglySorted Z.le (a ++ b).
Proof.
  induction a as [|y a IH]; simpl; intros H.
  - now inversion H.
  - inversion H as [|? ? Hs Hall]; subst. constructor; [now apply IH|].
    rewrite Forall_forall in *. intros z Hz. apply Hall.
    apply in_app_iff in Hz. apply in_app_iff. simpl. tauto.
Qed.

Lemma fold_Set_add_sorted l : forall s,
  StronglySorted Z.le (s ++ l) -> StronglySorted Z.le (fold_left Set_add l s).
Proof.
  induction l as [|x l IH]; intros s H; simpl.
  - now rewrite app_nil_r in H.
  - apply IH. unfold Set_add.
    destruct (existsb (Z.eqb x) s).
    + now apply sorted_remove in H.
    + now rewrite <- app_assoc.
Qed.

(** Spreading a [Set] built from a sorted array deduplicates it. *)
Lemma Set_of_deduplicated s :
  StronglySorted Z.le s -> deduplicated (Set_of s) s.
Proof.
  intros Hs. unfold deduplicated, Set_of. split; [|split].
  - apply fold_Set_add_distinct. constructor.
  - intros x. rewrite fold_Set_add_In. simpl. tauto.
  - now apply fold_Set_add_sorted.
Qed.

Lemma ranksAceHigh_sortedAscending hand :
  sortedAscending (ranksAceHigh hand) (map aceAsFourteen (map rank hand)).
Proof.
  apply sortedAscending_Array_sort. unfold ranksAceHigh, ranks.
  now rewrite (map_ext _ _ aceHigh_aceAsFourteen).
Qed.

(** ** Lowercasing and letter case *)

Lemma allCharacters_In a : In a allCharacters.
Proof.
  unfold allCharacters. rewrite <- (ascii_nat_embedding a).
  apply in_map, in_seq. pose proof (nat_ascii_bounded a). lia.
Qed.

Lemma letters_checked :
  forallb (fun a =>
    forallb (fun b =>
      Bool.eqb (sameLetterUpToCase a b)
               (Ascii.eqb (toLowerAscii a) (toLowerAscii b)))
      allCharacters) allCharacters = true.
Proof. vm_compute. reflexivity. Qed.

Lemma sameLetterUpToCase_fold a b :
  sameLetterUpToCase a b = true <-> toLowerAscii a = toLowerAscii b.
Proof.
  pose proof letters_checked as H.
  rewrite forallb_forall in H. specialize (H a (allCharacters_In a)).
  rewrite forallb_forall in H. specialize (H b (allCharacters_In b)).
  apply Bool.eqb_prop in H. rewrite H. apply Ascii.eqb_eq.
Qed.

Lemma equalUpToCase_fold s : forall t,
  equalUpToCase s t = true <-> toLowerCase s = toLowerCase t.
Proof.
  induction s as [|a s IH]; intros [|b t]; simpl;
    try (split; [discriminate | discriminate]); [tauto|].
  rewrite andb_true_iff, sameLetterUpToCase_fold, IH.
  split.
  - intros [-> ->]. reflexivity.
  - intros H. injection H as H1 H2. auto.
Qed.

Lemma isFlushWith_first lower hand first :
  nth_error hand 0 = Some first ->
  (isFlushWith lower hand = true <->
   forall card, In card hand -> lower (suit card) = lower (suit first)).
Proof.
  intros Hfirst. unfold isFlushWith, suitsWith.
  rewrite forallb_forall.
  destruct hand as [|c0 hand]; [discriminate|].
  simpl in Hfirst. injection Hfirst as ->.
  cbn [map nth_error].
  split.
  - intros H card Hin.
    apply String.eqb_eq. apply (H (lower (suit card))).
    apply (in_map (fun card => lower (suit card)) (first :: hand)), Hin.
  - intros H s Hs.
    change (lower (suit first) :: map (fun card => lower (suit card)) hand)
      with (map (fun card => lower (suit card)) (first :: hand)) in Hs.
    apply in_map_iff in Hs as [card [<- Hin]].
    simpl. apply String.eqb_eq, H, Hin.
Qed.

Lemma isFlush_isFlushWith hand : isFlush hand = isFlushWith toLowerCase hand.
Proof. reflexivity. Qed.

(** ** The properties of the specification *)

(** C1.  For every five-card hand the result is the category of the first
    condition that holds, the nine conditions taken in the order straight
    and flush, four of a kind, full house, flush, straight, three of a
    kind, two pair, pair, high card.  In particular a hand that is both a
    straight and a flush is a straight flush or a royal flush, never a
    plain flush or a plain straight. *)
Theorem resolver_priority_order hand :
  length hand = 5%nat ->
  firstMatch (priorityOrder hand) = Some (evaluatePokerHand hand) /\
  (isStraight hand = true -> isFlush hand = true ->
   (evaluatePokerHand hand = "straightflush" \/
    evaluatePokerHand hand = "royalflush") /\
   evaluatePokerHand hand <> "flush" /\
   evaluatePokerHand hand <> "straight").
Proof.
  intros _. split; [apply evaluate_firstMatch|].
  intros HS HF. rewrite (evaluate_straight_flush _ HS HF).
  unfold straightFlushKind.
  destruct (_ && _); (split; [tauto | split; discriminate]).
Qed.

Lemma resolver_priority_order_witness :
  length wheel_clubs = 5%nat /\
  firstMatch (priorityOrder wheel_clubs) = Some (evaluatePokerHand wheel_clubs) /\
  (isStraight wheel_clubs = true -> isFlush wheel_clubs = true ->
   (evaluatePokerHand wheel_clubs = "straightflush" \/
    evaluatePokerHand wheel_clubs = "royalflush") /\
   evaluatePokerHand wheel_clubs <> "flush" /\
   evaluatePokerHand wheel_clubs <> "straight").
Proof.
  split; [reflexivity | apply (resolver_priority_order wheel_clubs); reflexivity].
Defined.

(** C2.  The wheel in mixed suits is a straight; the wheel all in clubs is
    a straight flush and not a royal flush.  The reason: on a five-card
    hand [straightHigh] is 5 when the wheel path matched, and otherwise
    the fifth element of the ace-high sorted ranks, which is their
    maximum. *)
Theorem wheel_correctness :
  evaluatePokerHand wheel_mixed = "straight" /\
  evaluatePokerHand wheel_clubs = "straightflush" /\
  evaluatePokerHand wheel_clubs <> "royalflush" /\
  forall hand, length hand = 5%nat ->
    (wheelPath hand -> straightHigh hand = Some 5) /\
    (~ wheelPath hand ->
     exists highest,
       straightHigh hand = Some highest /\
       nth_error (ranksAceHigh hand) 4 = Some highest /\
       is_max highest (map aceHigh (ranks hand))).
Proof.
  split; [reflexivity|]. split; [reflexivity|]. split; [discriminate|].
  intros hand Hlen. unfold straightHigh, wheelPath.
  fold (sortedCards hand).
  pose proof (wheelStraight_five hand Hlen) as Hw.
  destruct (wheelStraight hand).
  - split; [reflexivity|]. intros Hn. exfalso. apply Hn, Hw. reflexivity.
  - split.
    + intros H. apply Hw in H. discriminate.
    + intros _.
      destruct (sort_ascending_last (map aceHigh (ranks hand)) 4) as [m [Hm Hmax]].
      { unfold ranks. now rewrite !length_map. }
      exists m. auto.
Qed.

Lemma wheel_correctness_witness :
  length royal_spades = 5%nat /\ ~ wheelPath royal_spades /\
  exists highest,
    straightHigh royal_spades = Some highest /\
    nth_error (ranksAceHigh royal_spades) 4 = Some highest /\
    is_max highest (map aceHigh (ranks royal_spades)).
Proof.
  assert (Hn : ~ wheelPath royal_spades) by (vm_compute; discriminate).
  split; [reflexivity|]. split; [exact Hn|].
  exact (proj2 (proj2 (proj2 (proj2 wheel_correctness)) royal_spades eq_refl) Hn).
Defined.

(** C3.  On a five-card hand that is a straight and a flush the result is
    "royalflush" exactly when [straightHigh] is 14 and the lowest
    ace-high rank is 10, and "straightflush" otherwise; the hand 10, J, Q,
    K, A of spades is a royal flush. *)
Theorem royal_flush_rule :
  (forall hand,
     length hand = 5%nat ->
     isStraight hand = true ->
     isFlush hand = true ->
     (evaluatePokerHand hand = "royalflush" <->
      straightHigh hand = Some 14 /\ is_min 10 (map aceHigh (ranks hand))) /\
     (evaluatePokerHand hand = "straightflush" <->
      ~ (straightHigh hand = Some 14 /\ is_min 10 (map aceHigh (ranks hand))))) /\
  evaluatePokerHand royal_spades = "royalflush".
Proof.
  split; [|reflexivity].
  intros hand Hlen HS HF.
  rewrite (evaluate_straight_flush _ HS HF). unfold straightFlushKind.
  destruct (sort_ascending_first (map aceHigh (ranks hand)) 4) as [lo [Hlo Hmin]].
  { unfold ranks. now rewrite !length_map. }
  fold (ranksAceHigh hand) in Hlo.
  assert (Hlow : strict_eq (nth_error (ranksAceHigh hand) 0) (Some 10) = true <->
                 is_min 10 (map aceHigh (ranks hand))).
  { rewrite strict_eq_Some, Hlo. split.
    - intros E. injection E as ->. exact Hmin.
    - intros H. f_equal. eapply is_min_unique; eassumption. }
  assert (Hcond : strict_eq (straightHigh hand) (Some 14)
                  && strict_eq (nth_error (ranksAceHigh hand) 0) (Some 10) = true <->
                  straightHigh hand = Some 14 /\ is_min 10 (map aceHigh (ranks hand))).
  { now rewrite andb_true_iff, strict_eq_Some, Hlow. }
  destruct (strict_eq (straightHigh hand) (Some 14)
            && strict_eq (nth_error (ranksAceHigh hand) 0) (Some 10)).
  - split; [tauto|].
    split; [discriminate|]. intros Hn. exfalso. apply Hn, Hcond. reflexivity.
  - split.
    + split; [discriminate|]. intros H. apply Hcond in H. discriminate.
    + split; [|reflexivity]. intros _ H. apply Hcond in H. discriminate.
Qed.

Lemma royal_flush_rule_witness :
  length royal_spades = 5%nat /\
  isStraight royal_spades = true /\
  isFlush royal_spades = true /\
  (evaluatePokerHand royal_spades = "royalflush" <->
   straightHigh royal_spades = Some 14 /\
   is_min 10 (map aceHigh (ranks royal_spades))).
Proof.
  split; [reflexivity|]. split; [reflexivity|]. split; [reflexivity|].
  exact (proj1 (proj1 royal_flush_rule royal_spades eq_refl eq_refl eq_refl)).
Defined.

(** C4.  On a five-card hand [isStraight] holds exactly when the ace-high
    path or the wheel path of the specification holds: the ranks with 1
    mapped to 14, sorted ascending and deduplicated, are five values with
    every consecutive pair one apart, or the raw ranks sorted ascending
    are 1, 2, 3, 4, 5.  The results "straight", "straightflush" and
    "royalflush" occur only then.  The arrays of the code are what the
    specification describes: [ranksAceHigh] is the mapped ranks sorted,
    [uniqueAceHigh] is that array deduplicated, [sortedCards] is the raw
    ranks sorted. *)
Theorem straight_detection hand :
  length hand = 5%nat ->
  sortedAscending (ranksAceHigh hand) (map aceAsFourteen (map rank hand)) /\
  deduplicated (uniqueAceHigh hand) (ranksAceHigh hand) /\
  sortedAscending (sortedCards hand) (map rank hand) /\
  (isStraight hand = true <-> specAceHighPath hand \/ specWheelPath hand) /\
  (evaluatePokerHand hand = "straight" \/
   evaluatePokerHand hand = "straightflush" \/
   evaluatePokerHand hand = "royalflush" ->
   specAceHighPath hand \/ specWheelPath hand).
Proof.
  intros Hlen.
  assert (H : isStraight hand = true <-> specAceHighPath hand \/ specWheelPath hand).
  { rewrite (isStraight_spec _ Hlen), (specAceHighPath_code _ Hlen), specWheelPath_code.
    reflexivity. }
  pose proof (ranksAceHigh_sortedAscending hand) as Hsorted.
  split; [exact Hsorted|].
  split; [apply Set_of_deduplicated, Hsorted|].
  split; [now apply sortedAscending_Array_sort|].
  split; [exact H|].
  intros Hc. apply H. now apply evaluate_needs_straight.
Qed.

Lemma straight_detection_witness :
  length royal_spades = 5%nat /\
  (isStraight royal_spades = true <->
   specAceHighPath royal_spades \/ specWheelPath royal_spades).
Proof.
  split; [reflexivity|].
  exact (proj1 (proj2 (proj2 (proj2 (straight_detection royal_spades eq_refl))))).
Defined.

(** C5.  For every array of five cards, whatever its ranks and suit
    strings and whether or not cards repeat, the call completes without
    raising and returns one of the ten category strings, which are
    pairwise different. *)
Theorem classification_total st hand cards :
  length cards = 5%nat ->
  nth_error st hand = Some (CardArray cards) ->
  NoDup categories /\
  In (evaluatePokerHand cards) categories /\
  exists st', evaluatePokerHandM hand st = Some (evaluatePokerHand cards, st').
Proof.
  intros _ H. split; [|split].
  - unfold categories.
    repeat (constructor; [simpl; intuition discriminate|]). constructor.
  - apply evaluate_categories.
  - eexists. now apply evaluatePokerHandM_runs.
Qed.

Lemma classification_total_witness :
  length malformed_hand = 5%nat /\
  nth_error [CardArray malformed_hand] 0 = Some (CardArray malformed_hand) /\
  In (evaluatePokerHand malformed_hand) categories /\
  exists st', evaluatePokerHandM 0%nat [CardArray malformed_hand]
              = Some (evaluatePokerHand malformed_hand, st').
Proof.
  split; [reflexivity|]. split; [reflexivity|].
  exact (proj2 (classification_total [CardArray malformed_hand] 0%nat
                  malformed_hand eq_refl eq_refl)).
Defined.

(** C6.  On a five-card hand the flush check holds exactly when every
    suit, lowercased by the built-in, equals the first card's lowercased
    suit; this is so whatever the built-in does to letters outside ASCII.
    For suits written in ASCII, where the built-in folds A..Z, the check
    holds exactly when every suit agrees with the first card's suit
    character by character up to letter case.  A hand whose suits are
    "Club", "club", "CLUB", ... is a flush. *)
Theorem flush_case_insensitive (lower : string -> string) :
  (forall hand first,
     length hand = 5%nat ->
     nth_error hand 0 = Some first ->
     (isFlushWith lower hand = true <->
      forall card, In card hand -> lower (suit card) = lower (suit first))) /\
  (foldsAscii lower ->
   (forall hand first,
      length hand = 5%nat ->
      nth_error hand 0 = Some first ->
      (forall card, In card hand -> asciiOnly (suit card) = true) ->
      (isFlushWith lower hand = true <->
       forall card, In card hand ->
         equalUpToCase (suit card) (suit first) = true)) /\
   isFlushWith lower mixed_case_clubs = true) /\
  (forall hand, isFlush hand = isFlushWith toLowerCase hand) /\
  evaluatePokerHand mixed_case_clubs = "flush".
Proof.
  split; [|split; [|split; [reflexivity | reflexivity]]].
  - intros hand first _ Hf. now apply isFlushWith_first.
  - intros Hfold. split.
    + intros hand first _ Hf Hascii.
      rewrite (isFlushWith_first lower hand first Hf).
      assert (Hfirst : In first hand) by (eapply nth_error_In; eassumption).
      split; intros H card Hin.
      * apply equalUpToCase_fold.
        rewrite <- (Hfold _ (Hascii card Hin)), <- (Hfold _ (Hascii first Hfirst)).
        now apply H.
      * rewrite (Hfold _ (Hascii card Hin)), (Hfold _ (Hascii first Hfirst)).
        apply equalUpToCase_fold. now apply H.
    + unfold isFlushWith, suitsWith, mixed_case_clubs. cbn [map suit].
      rewrite !Hfold by reflexivity. reflexivity.
Qed.

Lemma flush_case_insensitive_witness :
  foldsAscii toLowerCase /\
  length mixed_case_clubs = 5%nat /\
  nth_error mixed_case_clubs 0 = Some (mkCard 2 "Club") /\
  (isFlushWith toLowerCase mixed_case_clubs = true <->
   forall card, In card mixed_case_clubs ->
     toLowerCase (suit card) = toLowerCase (suit (mkCard 2 "Club"))) /\
  isFlushWith toLowerCase mixed_case_clubs = true.
Proof.
  assert (Hfold : foldsAscii toLowerCase) by (intros s _; reflexivity).
  split; [exact Hfold|]. split; [reflexivity|]. split; [reflexivity|].
  split.
  - exact (proj1 (flush_case_insensitive toLowerCase) mixed_case_clubs
             (mkCard 2 "Club") eq_refl eq_refl).
  - exact (proj2 (proj1 (proj2 (flush_case_insensitive toLowerCase)) Hfold)).
Defined.

(** C7, as amended.  For every five-card hand the counts of the map sum
    to 5, at most one of them is 4, and each lies between 1 and 5.  When
    moreover every suit is, after lowercasing, one of the four recognised
    suits and no two cards agree in rank and lowercased suit, each count
    lies between 1 and 4. *)
Theorem rank_count_profile hand :
  length hand = 5%nat ->
  sum_list (Map_values (rankCounts hand)) = 5 /\
  (countOf 4 (Map_values (rankCounts hand)) <= 1)%nat /\
  Forall (fun count => 1 <= count <= 5) (Map_values (rankCounts hand)) /\
  ((forall card, In card hand -> In (toLowerCase (suit card)) recognizedSuits) ->
   NoDup (map cardKey hand) ->
   Forall (fun count => 1 <= count <= 4) (Map_values (rankCounts hand))).
Proof.
  intros Hlen.
  assert (Hsum : sum_list (Map_values (rankCounts hand)) = 5)
    by (rewrite rankCounts_sum, Hlen; reflexivity).
  assert (Hb : Forall (fun count => 1 <= count <= 5) (Map_values (rankCounts hand))).
  { apply Forall_forall. intros v Hv.
    apply rankCounts_values_bounds in Hv. rewrite Hlen in Hv. lia. }
  repeat split; try assumption.
  - assert (Hpos : Forall (fun v => 0 <= v) (Map_values (rankCounts hand)))
      by (eapply Forall_impl; [|exact Hb]; simpl; intros; lia).
    pose proof (countOf_sum 4 _ ltac:(lia) Hpos) as H. lia.
  - intros Hs Hnd. apply Forall_forall. intros v Hv.
    destruct (rankCounts_values _ _ Hv) as [k [Hk ->]].
    split; [now apply occurrences_pos | now apply occurrences_le_suits].
Qed.

Lemma rank_count_profile_witness :
  length wheel_mixed = 5%nat /\
  (forall card, In card wheel_mixed -> In (toLowerCase (suit card)) recognizedSuits) /\
  NoDup (map cardKey wheel_mixed) /\
  Forall (fun count => 1 <= count <= 4) (Map_values (rankCounts wheel_mixed)).
Proof.
  assert (Hs : forall card, In card wheel_mixed ->
                 In (toLowerCase (suit card)) recognizedSuits).
  { intros card Hin. simpl in Hin.
    repeat (destruct Hin as [<-|Hin]; [vm_compute; tauto|]). destruct Hin. }
  assert (Hnd : NoDup (map cardKey wheel_mixed)).
  { vm_compute. repeat (constructor; [simpl; intuition discriminate|]). constructor. }
  split; [reflexivity|]. split; [exact Hs|]. split; [exact Hnd|].
  exact (proj2 (proj2 (proj2 (rank_count_profile wheel_mixed eq_refl))) Hs Hnd).
Defined.

(** C7, as stated, fails: five cards of rank 7 with five different suit
    strings are a hand without a repeated card, and the count of 7 is 5. *)
Lemma five_sevens_counterexample :
  ~ (forall hand, length hand = 5%nat ->
       sum_list (Map_values (rankCounts hand)) = 5 /\
       (countOf 4 (Map_values (rankCounts hand)) <= 1)%nat /\
       (NoDup hand ->
        Forall (fun count => 1 <= count <= 4) (Map_values (rankCounts hand)))).
Proof.
  intros H. destruct (H five_sevens eq_refl) as (_ & _ & Hb).
  specialize (Hb five_sevens_NoDup).
  vm_compute in Hb. inversion Hb as [|? ? [_ Hle] _]. apply Hle. reflexivity.
Qed.

(** C8.  Two calls on hands with the same cards return the same category,
    in whatever store they run; a call leaves every object that existed
    before it, the hand included, as it was, and a later call in the store
    the first one left behind returns the same category again. *)
Theorem evaluation_pure st1 st2 hand1 hand2 cards :
  nth_error st1 hand1 = Some (CardArray cards) ->
  nth_error st2 hand2 = Some (CardArray cards) ->
  exists category st1' st2',
    evaluatePokerHandM hand1 st1 = Some (category, st1') /\
    evaluatePokerHandM hand2 st2 = Some (category, st2') /\
    (forall r o, nth_error st1 r = Some o -> nth_error st1' r = Some o) /\
    (exists st1'', evaluatePokerHandM hand1 st1' = Some (category, st1'')).
Proof.
  intros H1 H2.
  exists (evaluatePokerHand cards), (st1 ++ allocated cards), (st2 ++ allocated cards).
  split; [now apply evaluatePokerHandM_runs|].
  split; [now apply evaluatePokerHandM_runs|].
  split; [intros r o; apply nth_error_old|].
  eexists. apply evaluatePokerHandM_runs. now apply nth_error_old.
Qed.

Lemma evaluation_pure_witness :
  exists category st1' st2',
    evaluatePokerHandM 0%nat [CardArray royal_spades] = Some (category, st1') /\
    evaluatePokerHandM 1%nat [NumberArray [7]; CardArray royal_spades]
      = Some (category, st2') /\
    (forall r o, nth_error [CardArray royal_spades] r = Some o ->
                 nth_error st1' r = Some o) /\
    (exists st1'', evaluatePokerHandM 0%nat st1' = Some (category, st1'')).
Proof.
  exact (evaluation_pure [CardArray royal_spades]
           [NumberArray [7]; CardArray royal_spades] 0%nat 1%nat royal_spades
           eq_refl eq_refl).
Defined.

(** C9.  Reordering the cards of a five-card hand does not change the
    category. *)
Theorem order_irrelevant hand reordered :
  length hand = 5%nat ->
  Permutation hand reordered ->
  evaluatePokerHand hand = evaluatePokerHand reordered.
Proof.
  intros _ HP. apply evaluate_ranks_flush.
  - unfold ranks. now apply Permutation_map.
  - now apply isFlush_perm.
Qed.

Lemma order_irrelevant_witness :
  length royal_spades = 5%nat /\
  Permutation royal_spades (rev royal_spades) /\
  evaluatePokerHand royal_spades = evaluatePokerHand (rev royal_spades).
Proof.
  split; [reflexivity|]. split; [apply Permutation_rev|].
  apply (order_irrelevant royal_spades (rev royal_spades));
    [reflexivity | apply Permutation_rev].
Defined.

(** C10.  Two five-card hands with the same multiset of ranks that agree
    on whether all suits are equal after lowercasing get the same
    category, whatever the suit strings are. *)
Theorem suits_only_through_flush hand1 hand2 :
  length hand1 = 5%nat ->
  length hand2 = 5%nat ->
  Permutation (ranks hand1) (ranks hand2) ->
  (sameSuit hand1 <-> sameSuit hand2) ->
  evaluatePokerHand hand1 = evaluatePokerHand hand2.
Proof.
  intros _ _ HP HS. apply evaluate_ranks_flush; [exact HP|].
  rewrite <- !isFlush_sameSuit in HS.
  destruct (isFlush hand1), (isFlush hand2); try reflexivity.
  - symmetry. now apply HS.
  - now apply HS.
Qed.

Lemma suits_only_through_flush_witness :
  length wheel_mixed = 5%nat /\
  length wheel_unknown_suits = 5%nat /\
  Permutation (ranks wheel_mixed) (ranks wheel_unknown_suits) /\
  (sameSuit wheel_mixed <-> sameSuit wheel_unknown_suits) /\
  evaluatePokerHand wheel_mixed = evaluatePokerHand wheel_unknown_suits.
Proof.
  assert (HP : Permutation (ranks wheel_mixed) (ranks wheel_unknown_suits))
    by apply (Permutation_rev (ranks wheel_mixed)).
  assert (HS : sameSuit wheel_mixed <-> sameSuit wheel_unknown_suits).
  { split; intros H; exfalso; revert H.
    - apply (not_sameSuit _ (mkCard 1 "club") (mkCard 2 "diamond"));
        simpl; try tauto. discriminate.
    - apply (not_sameSuit _ (mkCard 5 "x") (mkCard 4 "y"));
        simpl; try tauto. discriminate. }
  split; [reflexivity|]. split; [reflexivity|]. split; [exact HP|].
  split; [exact HS|].
  exact (suits_only_through_flush wheel_mixed wheel_unknown_suits
           eq_refl eq_refl HP HS).
Defined.

(** ** The map in closed form *)

Lemma Map_keys_countRank m r : Map_keys (countRank m r) = Set_add (Map_keys m) r.
Proof. unfold countRank, Set_add. apply Map_keys_set. Qed.

Lemma fold_countRank_Map_keys l : forall m,
  Map_keys (fold_left countRank l m) = fold_left Set_add l (Map_keys m).
Proof.
  induction l as [|r l IH]; intros m; simpl; [reflexivity|].
  now rewrite IH, Map_keys_countRank.
Qed.

Lemma rankCounts_keys hand : Map_keys (rankCounts hand) = Set_of (ranks hand).
Proof. rewrite rankCounts_fold. apply (fold_countRank_Map_keys (ranks hand) []). Qed.

Lemma entries_from_keys (f : Z -> Z) (m : JsMap) :
  (forall k v, In (k, v) m -> v = f k) ->
  m = map (fun k => (k, f k)) (Map_keys m).
Proof.
  induction m as [|[k v] m IH]; intros H; simpl; [reflexivity|].
  rewrite (H k v (or_introl eq_refl)). f_equal.
  apply IH. intros k' v' Hin. apply H. now right.
Qed.

Lemma rankCounts_entries hand :
  rankCounts hand =
  map (fun k => (k, occurrences (ranks hand) k)) (Map_keys (rankCounts hand)).
Proof.
  apply entries_from_keys. intros k v H. now apply rankCounts_In in H.
Qed.

Lemma rankCounts_values_keys hand :
  Map_values (rankCounts hand) =
  map (occurrences (ranks hand)) (Map_keys (rankCounts hand)).
Proof.
  unfold Map_values. rewrite (rankCounts_entries hand) at 1.
  rewrite map_map. reflexivity.
Qed.

Lemma rankCounts_keys_In hand k : In k (Map_keys (rankCounts hand)) <-> In k (ranks hand).
Proof.
  rewrite rankCounts_fold, fold_countRank_keys. simpl. tauto.
Qed.

Lemma occurrences_In l k : In k l <-> 1 <= occurrences l k.
Proof.
  unfold occurrences. rewrite (count_occ_In Z.eq_dec). lia.
Qed.

Lemma occurrences_nonneg l k : 0 <= occurrences l k.
Proof. unfold occurrences. lia. Qed.

Lemma rankCounts_values_In hand n :
  1 <= n ->
  (In n (Map_values (rankCounts hand)) <-> hasRankCount hand n).
Proof.
  intros Hn. unfold hasRankCount. split.
  - intros H. destruct (rankCounts_values _ _ H) as [k [_ ->]]. now exists k.
  - intros [k Hk]. rewrite rankCounts_values_keys. rewrite <- Hk.
    apply in_map. apply rankCounts_keys_In, occurrences_In. lia.
Qed.

Lemma rankCounts_get hand k :
  Map_get (rankCounts hand) k =
  if in_dec Z.eq_dec k (ranks hand) then Some (occurrences (ranks hand) k) else None.
Proof.
  destruct (in_dec Z.eq_dec k (ranks hand)) as [Hin|Hin].
  - apply (Map_get_In _ _ _ (rankCounts_NoDup hand)). now apply rankCounts_In.
  - apply Map_get_None. now rewrite rankCounts_keys_In.
Qed.

(** ** The largest count *)

Lemma descendingOrder_In hand v :
  In v (descendingOrder hand) <-> In v (Map_values (rankCounts hand)).
Proof. apply Array_sort_In. Qed.

Lemma descendingOrder_head hand m :
  nth_error (descendingOrder hand) 0 = Some m <->
  In m (Map_values (rankCounts hand)) /\
  forall v, In v (Map_values (rankCounts hand)) -> v <= m.
Proof.
  split.
  - intros H. split.
    + apply descendingOrder_In. eapply nth_error_In; eassumption.
    + intros v Hv. apply descendingOrder_In in Hv.
      destruct (In_nth_error _ _ Hv) as [i Hi].
      destruct i as [|i]; [rewrite H in Hi; injection Hi as ->; lia|].
      assert (Hb : before descending m v).
      { apply (sorted_nth_error descending) with
          (l := descendingOrder hand) (i := 0%nat) (j := S i); auto.
        - apply Array_sort_sorted; [apply descending_total | apply descending_trans].
        - lia. }
      unfold before, descending in Hb. lia.
  - intros [Hin Hmax].
    destruct (nth_error (descendingOrder hand) 0) as [m'|] eqn:E.
    + f_equal.
      assert (In m' (Map_values (rankCounts hand)))
        by (apply descendingOrder_In; eapply nth_error_In; eassumption).
      assert (m <= m').
      { apply descendingOrder_In in Hin.
        destruct (In_nth_error _ _ Hin) as [i Hi].
        destruct i as [|i]; [rewrite E in Hi; injection Hi as ->; lia|].
        assert (Hb : before descending m' m).
        { apply (sorted_nth_error descending) with
            (l := descendingOrder hand) (i := 0%nat) (j := S i); auto.
          - apply Array_sort_sorted; [apply descending_total | apply descending_trans].
          - lia. }
        unfold before, descending in Hb. lia. }
      specialize (Hmax m' H). lia.
    + apply descendingOrder_In in Hin.
      destruct (descendingOrder hand); [destruct Hin | discriminate].
Qed.

Lemma largest_count hand n :
  1 <= n ->
  (strict_eq (nth_error (descendingOrder hand) 0) (Some n) = true <->
   hasRankCount hand n /\ forall k, occurrences (ranks hand) k <= n).
Proof.
  intros Hn. rewrite strict_eq_Some, descendingOrder_head.
  rewrite (rankCounts_values_In _ _ Hn). split; intros [H1 H2]; (split; [exact H1|]).
  - intros k. destruct (Z_le_gt_dec (occurrences (ranks hand) k) 0) as [H0|H0]; [lia|].
    apply H2. apply rankCounts_values_In; [lia|]. now exists k.
  - intros v Hv. destruct (rankCounts_values _ _ Hv) as [k [_ ->]]. apply H2.
Qed.

(** ** Counts against the size of the hand *)

Lemma countOf_In n l : In n l <-> (1 <= countOf n l)%nat.
Proof.
  unfold countOf. induction l as [|v l IH]; simpl; [split; [tauto|lia]|].
  destruct (Z.eqb_spec v n) as [->|Hne]; simpl.
  - split; [lia | auto].
  - rewrite <- IH. split; [intros [H|H]; [congruence|assumption] | auto].
Qed.

Lemma profile_bound l :
  Forall (fun v => 1 <= v) l ->
  4 * Z.of_nat (countOf 4 l) + 3 * Z.of_nat (countOf 3 l)
  + 2 * Z.of_nat (countOf 2 l) <= sum_list l.
Proof.
  unfold countOf.
  induction 1 as [|v l Hv _ IH]; simpl (sum_list _); [simpl; lia|].
  cbn [filter].
  destruct (Z.eqb_spec v 4), (Z.eqb_spec v 3), (Z.eqb_spec v 2);
    cbn [length]; lia.
Qed.

Lemma rankCounts_positive hand :
  Forall (fun v => 1 <= v) (Map_values (rankCounts hand)).
Proof.
  apply Forall_forall. intros v Hv. now apply rankCounts_values_bounds in Hv.
Qed.

(** On five cards: four of one rank leave room for nothing else of note,
    three of one rank leave room for at most one pair, and so on. *)
Lemma five_card_profile hand :
  length hand = 5%nat ->
  4 * Z.of_nat (countOf 4 (Map_values (rankCounts hand)))
  + 3 * Z.of_nat (countOf 3 (Map_values (rankCounts hand)))
  + 2 * Z.of_nat (numPairs hand) <= 5.
Proof.
  intros Hlen.
  pose proof (profile_bound _ (rankCounts_positive hand)) as H.
  rewrite rankCounts_sum, Hlen in H. exact H.
Qed.

Lemma count_hasRankCount hand n :
  1 <= n ->
  ((1 <= countOf n (Map_values (rankCounts hand)))%nat <-> hasRankCount hand n).
Proof.
  intros Hn. now rewrite <- countOf_In, rankCounts_values_In.
Qed.

Lemma sum_list_nonneg l : Forall (fun v => 1 <= v) l -> 0 <= sum_list l.
Proof. induction 1; simpl; lia. Qed.

Lemma sum_list_In l a : Forall (fun v => 1 <= v) l -> In a l -> a <= sum_list l.
Proof.
  induction 1 as [|v l Hv Hl IH]; intros Hin; [destruct Hin|].
  pose proof (sum_list_nonneg l Hl). simpl.
  destruct Hin as [->|Hin]; [lia|]. specialize (IH Hin). lia.
Qed.

Lemma sum_list_two l a b :
  Forall (fun v => 1 <= v) l -> In a l -> In b l -> a <> b -> a + b <= sum_list l.
Proof.
  induction 1 as [|v l Hv Hl IH]; intros Ha Hb Hne; [destruct Ha|]. simpl.
  destruct Ha as [->|Ha], Hb as [->|Hb].
  - congruence.
  - pose proof (sum_list_In l b Hl Hb). lia.
  - pose proof (sum_list_In l a Hl Ha). lia.
  - specialize (IH Ha Hb Hne). lia.
Qed.

(** Two different counts of a hand are counts of different ranks, so
    together they do not exceed the number of cards. *)
Lemma two_counts hand a b :
  1 <= a -> 1 <= b -> a <> b ->
  hasRankCount hand a -> hasRankCount hand b ->
  a + b <= Z.of_nat (length hand).
Proof.
  intros Ha Hb Hne H1 H2.
  apply rankCounts_values_In in H1, H2; try assumption.
  rewrite <- rankCounts_sum.
  apply sum_list_two; auto using rankCounts_positive.
Qed.

Lemma occurrences_le_hand hand k : occurrences (ranks hand) k <= Z.of_nat (length hand).
Proof.
  pose proof (occurrences_le_length (ranks hand) k) as Hb.
  unfold ranks in Hb at 2. now rewrite length_map in Hb.
Qed.

Lemma hasFour_five hand :
  length hand = 5%nat -> (hasFour hand = true <-> hasRankCount hand 4).
Proof.
  intros Hlen. unfold hasFour. rewrite largest_count by lia.
  split; [tauto|]. intros H. split; [exact H|]. intros k.
  pose proof (occurrences_le_hand hand k) as Hb. rewrite Hlen in Hb.
  destruct (Z.eq_dec (occurrences (ranks hand) k) 5) as [E|E]; [|lia].
  pose proof (two_counts hand 4 5 ltac:(lia) ltac:(lia) ltac:(lia) H
                (ex_intro _ k E)) as Hc.
  rewrite Hlen in Hc. lia.
Qed.

Lemma hasThree_five hand :
  length hand = 5%nat -> (hasThree hand = true <-> hasRankCount hand 3).
Proof.
  intros Hlen. unfold hasThree. rewrite largest_count by lia.
  split; [tauto|]. intros H. split; [exact H|]. intros k.
  pose proof (occurrences_le_hand hand k) as Hb. rewrite Hlen in Hb.
  destruct (Z_le_gt_dec (occurrences (ranks hand) k) 3) as [E|E]; [exact E|].
  pose proof (two_counts hand 3 (occurrences (ranks hand) k)
                ltac:(lia) ltac:(lia) ltac:(lia) H (ex_intro _ k eq_refl)) as Hc.
  rewrite Hlen in Hc. lia.
Qed.

Lemma numPairs_countOf hand : numPairs hand = countOf 2 (Map_values (rankCounts hand)).
Proof. reflexivity. Qed.

Lemma numPairs_pos hand : (1 <= numPairs hand)%nat <-> hasRankCount hand 2.
Proof. rewrite numPairs_countOf. apply count_hasRankCount. lia. Qed.

(** The number of pairs is the number of distinct ranks held twice. *)
Lemma numPairs_keys hand :
  numPairs hand =
  length (filter (fun k => occurrences (ranks hand) k =? 2) (Map_keys (rankCounts hand))).
Proof.
  unfold numPairs. rewrite rankCounts_values_keys.
  generalize (Map_keys (rankCounts hand)). intros K.
  induction K as [|k K IH]; simpl; [reflexivity|].
  destruct (occurrences (ranks hand) k =? 2); simpl; now rewrite IH.
Qed.

Lemma numPairs_two hand :
  length hand = 5%nat -> (numPairs hand = 2%nat <-> twoPairRanks hand).
Proof.
  intros Hlen. pose proof (five_card_profile hand Hlen) as Hp.
  rewrite numPairs_keys in *.
  set (F := filter (fun k => occurrences (ranks hand) k =? 2)
                   (Map_keys (rankCounts hand))) in *.
  assert (HF : forall k, In k F <-> occurrences (ranks hand) k = 2).
  { intros k. unfold F. rewrite filter_In, Z.eqb_eq, rankCounts_keys_In, occurrences_In.
    split; [tauto | intros H; split; [lia | exact H]]. }
  assert (Hnd : NoDup F) by (apply NoDup_filter, rankCounts_NoDup).
  unfold twoPairRanks. split.
  - intros H2. destruct F as [|a [|b [|c F']]] eqn:E; try discriminate.
    exists a, b. split; [|split].
    + inversion Hnd as [|? ? Hna _]; subst. intros ->. apply Hna. now left.
    + apply HF. now left.
    + apply HF. right. now left.
  - intros (a & b & Hne & Ha & Hb).
    apply HF in Ha, Hb.
    assert (Hincl : incl [a; b] F) by (intros x [<-|[<-|[]]]; assumption).
    assert (Hab : NoDup [a; b]).
    { constructor; [intros [H|[]]; congruence|]. constructor; [intros []|constructor]. }
    pose proof (NoDup_incl_length Hab Hincl) as Hl. simpl in Hl. lia.
Qed.

(** ** Straights have five different ranks *)

Lemma isStraight_shape hand :
  length hand = 5%nat -> (isStraight hand = true <-> straightShape hand).
Proof.
  intros Hlen. rewrite (isStraight_spec _ Hlen).
  unfold straightShape. now rewrite (aceHighPath_run _ Hlen), wheelPath_perm.
Qed.

Lemma straightShape_NoDup hand : straightShape hand -> NoDup (ranks hand).
Proof.
  intros [[a H]|H].
  - apply (NoDup_map_inv aceHigh).
    apply (Permutation_NoDup (Permutation_sym H)), NoDup_five.
  - apply (Permutation_NoDup (Permutation_sym H)).
    apply (NoDup_five 1).
Qed.

Lemma NoDup_no_count hand n :
  NoDup (ranks hand) -> 2 <= n -> ~ hasRankCount hand n.
Proof.
  intros Hnd Hn [k Hk]. unfold occurrences in Hk.
  rewrite (NoDup_count_occ Z.eq_dec) in Hnd. specialize (Hnd k). lia.
Qed.

Lemma hasFour_In hand : hasFour hand = true -> hasRankCount hand 4.
Proof. unfold hasFour. rewrite largest_count by lia. tauto. Qed.

Lemma hasThree_In hand : hasThree hand = true -> hasRankCount hand 3.
Proof. unfold hasThree. rewrite largest_count by lia. tauto. Qed.

Lemma NoDup_flags hand :
  NoDup (ranks hand) ->
  hasFour hand = false /\ hasThree hand = false /\ numPairs hand = 0%nat.
Proof.
  intros Hnd. repeat split.
  - destruct (hasFour hand) eqn:E; [|reflexivity].
    apply hasFour_In in E. now apply NoDup_no_count in E; [|assumption|lia].
  - destruct (hasThree hand) eqn:E; [|reflexivity].
    apply hasThree_In in E. now apply NoDup_no_count in E; [|assumption|lia].
  - destruct (numPairs hand) eqn:E; [reflexivity|].
    assert (H : hasRankCount hand 2) by (apply numPairs_pos; lia).
    now apply NoDup_no_count in H; [|assumption|lia].
Qed.

Lemma ranksAceHigh_run hand a :
  Permutation (map aceHigh (ranks hand)) [a; a + 1; a + 2; a + 3; a + 4] ->
  ranksAceHigh hand = [a; a + 1; a + 2; a + 3; a + 4].
Proof.
  intros HP. unfold ranksAceHigh. rewrite (sort_ascending_perm_eq _ _ HP).
  apply Array_sort_sorted_id, sorted_five.
Qed.

Lemma aceHigh_not_small r : aceHigh r <> 1.
Proof. unfold aceHigh. destruct (Z.eqb_spec r 1); lia. Qed.

Lemma wheel_not_royal hand :
  Permutation (ranks hand) [1; 2; 3; 4; 5] -> ~ royalRanks hand.
Proof.
  unfold royalRanks. intros Hw Hr.
  apply (Permutation_map aceHigh) in Hw.
  assert (Hin : In 2 (map aceHigh (ranks hand))).
  { apply (Permutation_in _ (Permutation_sym Hw)). simpl. tauto. }
  apply (Permutation_in _ Hr) in Hin. simpl in Hin. lia.
Qed.

(** What the royal test of the source amounts to on a straight. *)
Lemma royal_test hand :
  length hand = 5%nat ->
  isStraight hand = true ->
  (strict_eq (straightHigh hand) (Some 14)
   && strict_eq (nth_error (ranksAceHigh hand) 0) (Some 10) = true
   <-> royalRanks hand).
Proof.
  intros Hlen HS. rewrite andb_true_iff, !strict_eq_Some.
  unfold straightHigh, royalRanks.
  pose proof (wheelStraight_five hand Hlen) as Hw.
  split.
  - intros [H14 H10].
    destruct (wheelStraight hand) eqn:Ew; [discriminate|].
    apply (isStraight_shape _ Hlen) in HS. destruct HS as [[a Ha]|Hwheel].
    + rewrite (ranksAceHigh_run _ _ Ha) in H10. simpl in H10.
      injection H10 as ->. exact Ha.
    + exfalso. apply wheelPath_perm in Hwheel.
      unfold wheelPath in Hwheel. fold (sortedCards hand) in Hwheel.
      apply Hw in Hwheel. discriminate.
  - intros Hr.
    rewrite (ranksAceHigh_run hand 10 Hr). simpl.
    destruct (wheelStraight hand) eqn:Ew; [|split; reflexivity].
    exfalso. assert (Hwp : sortedCards hand = [1; 2; 3; 4; 5]) by now apply Hw.
    apply (wheel_not_royal hand); [|exact Hr].
    apply wheelPath_perm. exact Hwp.
Qed.

Lemma royalRanks_straight hand :
  length hand = 5%nat -> royalRanks hand -> isStraight hand = true.
Proof.
  intros Hlen Hr. apply (isStraight_shape _ Hlen). left. now exists 10.
Qed.

(** ** The flags of a five-card hand, in terms of its ranks *)

Lemma five_card_flags hand :
  length hand = 5%nat ->
  (isStraight hand = true <-> straightShape hand) /\
  (hasFour hand = true <-> hasRankCount hand 4) /\
  (hasThree hand = true <-> hasRankCount hand 3) /\
  ((numPairs hand =? 1)%nat = true <-> hasRankCount hand 2 /\ ~ twoPairRanks hand) /\
  ((numPairs hand =? 2)%nat = true <-> twoPairRanks hand) /\
  (straightShape hand ->
   ~ hasRankCount hand 4 /\ ~ hasRankCount hand 3 /\ ~ hasRankCount hand 2) /\
  (hasRankCount hand 4 -> ~ hasRankCount hand 3 /\ ~ hasRankCount hand 2) /\
  (hasRankCount hand 3 -> ~ twoPairRanks hand) /\
  (twoPairRanks hand -> hasRankCount hand 2).
Proof.
  intros Hlen.
  pose proof (five_card_profile hand Hlen) as Hp.
  pose proof (count_hasRankCount hand 4 ltac:(lia)) as C4.
  pose proof (count_hasRankCount hand 3 ltac:(lia)) as C3.
  pose proof (numPairs_pos hand) as C2.
  pose proof (numPairs_two hand Hlen) as T2.
  rewrite !Nat.eqb_eq.
  split; [now apply isStraight_shape|].
  split; [now apply hasFour_five|].
  split; [now apply hasThree_five|].
  split; [|split; [exact T2|]].
  { rewrite <- T2, <- C2. lia. }
  split; [|split; [|split]].
  - intros HS. apply straightShape_NoDup in HS.
    repeat split; apply NoDup_no_count; auto; lia.
  - intros H4. apply C4 in H4. rewrite <- C3, <- C2. lia.
  - intros H3. apply C3 in H3. rewrite <- T2. lia.
  - intros H2. apply C2. apply T2 in H2. lia.
Qed.

Ltac flags hand Hlen :=
  destruct (five_card_flags hand Hlen) as (FS & F4 & F3 & FP1 & FP2 & XS & X4 & X3 & X2);
  pose proof (royal_test hand Hlen) as FR;
  assert (XR : royalRanks hand -> straightShape hand)
    by (intros ?; left; now exists 10);
  unfold evaluatePokerHand;
  destruct (isStraight hand) eqn:ES, (isFlush hand) eqn:EF;
  cbn [andb];
  [ destruct (strict_eq (straightHigh hand) (Some 14)
              && strict_eq (nth_error (ranksAceHigh hand) 0) (Some 10)) eqn:ER
  | | | ];
  destruct (hasFour hand) eqn:E4, (hasThree hand) eqn:E3,
           (numPairs hand =? 1)%nat eqn:EP1, (numPairs hand =? 2)%nat eqn:EP2;
  cbn [andb].

Ltac by_flags hand Hlen :=
  flags hand Hlen;
  (split; [intros H; try discriminate H|intros H]);
  intuition (try discriminate; try congruence).

Lemma forallb_map_index {A B} (f : B -> bool) (g : A -> B) l :
  forallb f (map g l) = forallb (fun x => f (g x)) l.
Proof. induction l as [|x l IH]; simpl; [reflexivity | now rewrite IH]. Qed.

(** ** The wheel loop on hands of any size *)

Lemma prefix_loop (s : list Z) : forall p,
  forallb (fun i => strict_eq (nth_error s i) (nth_error p i)) (seq 0 (length s)) = true
  <-> exists rest, p = s ++ rest.
Proof.
  induction s as [|x s IH]; intros p.
  - simpl. split; [intros _; now exists p | reflexivity].
  - cbn [length seq forallb]. rewrite <- seq_shift, forallb_map_index.
    destruct p as [|y p]; cbn [nth_error strict_eq].
    + split; [discriminate | intros [rest H]; discriminate].
    + rewrite andb_true_iff, Z.eqb_eq.
      change (forallb (fun x0 : nat => strict_eq (nth_error (x :: s) (S x0))
                                         (nth_error (y :: p) (S x0)))
                      (seq 0 (length s)))
        with (forallb (fun i => strict_eq (nth_error s i) (nth_error p i))
                      (seq 0 (length s))).
      rewrite IH. split.
      * intros [-> [rest ->]]. now exists rest.
      * intros [rest H]. injection H as -> ->. split; [reflexivity | now exists rest].
Qed.

Lemma wheelStraight_prefix hand :
  wheelStraight hand = true <-> exists rest, wheelPattern = sortedCards hand ++ rest.
Proof. apply prefix_loop. Qed.

Lemma sortedCards_length hand : length (sortedCards hand) = length hand.
Proof. unfold sortedCards, ranks. now rewrite Array_sort_length, length_map. Qed.

Lemma sort_wheel_prefix n :
  Array_sort ascending (firstn n wheelPattern) = firstn n wheelPattern.
Proof.
  do 6 (destruct n as [|n]; [reflexivity|]). reflexivity.
Qed.

Lemma wheelStraight_ranks hand :
  wheelStraight hand = true <->
  (length hand <= 5)%nat /\
  Permutation (ranks hand) (firstn (length hand) wheelPattern).
Proof.
  rewrite wheelStraight_prefix. split.
  - intros [rest H].
    assert (Hlen : (length hand <= 5)%nat).
    { apply (f_equal (@length Z)) in H. rewrite length_app, sortedCards_length in H.
      simpl in H. lia. }
    split; [exact Hlen|].
    assert (E : sortedCards hand = firstn (length hand) wheelPattern).
    { rewrite H, <- (sortedCards_length hand), firstn_app, Nat.sub_diag.
      simpl. now rewrite firstn_all, app_nil_r. }
    rewrite <- E. apply Permutation_sym, Array_sort_perm.
  - intros [Hlen HP]. exists (skipn (length hand) wheelPattern).
    unfold sortedCards. rewrite (sort_ascending_perm_eq _ _ HP), sort_wheel_prefix.
    symmetry. apply firstn_skipn.
Qed.

Lemma Set_of_In l x : In x (Set_of l) <-> In x l.
Proof.
  unfold Set_of.
  assert (H : forall l s, In x (fold_left Set_add l s) <-> In x s \/ In x l).
  { clear. induction l as [|y l IH]; intros s; simpl; [tauto|].
    rewrite IH. unfold Set_add.
    destruct (existsb (Z.eqb y) s) eqn:E.
    - apply existsb_eqb_In in E. intuition congruence.
    - rewrite in_app_iff. simpl. tauto. }
  rewrite H. simpl. tauto.
Qed.

Lemma uniqueAceHigh_length hand : (length (uniqueAceHigh hand) <= length hand)%nat.
Proof.
  unfold uniqueAceHigh. rewrite <- (ranksAceHigh_length hand).
  apply (fold_Set_add_length (ranksAceHigh hand) []).
Qed.

Lemma firstn_wheel_NoDup n : NoDup (firstn n wheelPattern).
Proof.
  do 6 (destruct n as [|n];
        [simpl; repeat (constructor; [simpl; lia|]); constructor|]).
  simpl. repeat (constructor; [simpl; lia|]). constructor.
Qed.

(** ** Ranks of a real deck *)

Lemma realRanks_In hand x : realRanks hand -> In x (ranks hand) -> 1 <= x <= 13.
Proof.
  intros H Hin. unfold ranks in Hin. apply in_map_iff in Hin as [c [<- Hc]]. now apply H.
Qed.

Lemma aceHigh_run_inv hand a :
  realRanks hand ->
  Permutation (map aceHigh (ranks hand)) [a; a + 1; a + 2; a + 3; a + 4] ->
  (2 <= a <= 9 /\ Permutation (ranks hand) [a; a + 1; a + 2; a + 3; a + 4])
  \/ (a = 10 /\ Permutation (ranks hand) [10; 11; 12; 13; 1]).
Proof.
  intros Hwf HP. apply Permutation_sym in HP.
  destruct (Permutation_map_inv _ _ HP) as [l3 [Hmap Hperm]].
  destruct l3 as [|x0 [|x1 [|x2 [|x3 [|x4 [|x5 l3]]]]]]; try discriminate.
  injection Hmap as H0 H1 H2 H3 H4.
  assert (Hin : forall x, In x [x0; x1; x2; x3; x4] -> 1 <= x <= 13).
  { intros x Hx. apply (realRanks_In hand); [assumption|].
    apply (Permutation_in _ (Permutation_sym Hperm)), Hx. }
  pose proof (Hin x0 ltac:(simpl; tauto)). pose proof (Hin x1 ltac:(simpl; tauto)).
  pose proof (Hin x2 ltac:(simpl; tauto)). pose proof (Hin x3 ltac:(simpl; tauto)).
  pose proof (Hin x4 ltac:(simpl; tauto)).
  unfold aceHigh in *.
  destruct (Z.eqb_spec x0 1), (Z.eqb_spec x1 1), (Z.eqb_spec x2 1),
           (Z.eqb_spec x3 1), (Z.eqb_spec x4 1); try lia.
  - right. split; [lia|].
    replace [10; 11; 12; 13; 1] with [x0; x1; x2; x3; x4]; [exact Hperm|].
    repeat f_equal; lia.
  - left. split; [lia|].
    replace [a; a + 1; a + 2; a + 3; a + 4] with [x0; x1; x2; x3; x4]; [exact Hperm|].
    repeat f_equal; lia.
Qed.

Lemma aceHigh_id x : x <> 1 -> aceHigh x = x.
Proof. unfold aceHigh. destruct (Z.eqb_spec x 1); congruence. Qed.

Lemma royalRanks_real hand :
  realRanks hand ->
  (royalRanks hand <-> Permutation (ranks hand) [10; 11; 12; 13; 1]).
Proof.
  intros Hwf. unfold royalRanks. split.
  - intros H. destruct (aceHigh_run_inv hand 10 Hwf H) as [[Ha _]|[_ HP]]; [lia|exact HP].
  - intros H. apply (Permutation_map aceHigh) in H. exact H.
Qed.

Lemma straightShape_real hand :
  realRanks hand ->
  (straightShape hand <->
   (exists a, 1 <= a <= 9 /\
      Permutation (ranks hand) [a; a + 1; a + 2; a + 3; a + 4])
   \/ Permutation (ranks hand) [10; 11; 12; 13; 1]).
Proof.
  intros Hwf. unfold straightShape. split.
  - intros [[a Ha]|Hw].
    + destruct (aceHigh_run_inv hand a Hwf Ha) as [[Hr HP]|[_ HP]].
      * left. exists a. split; [lia|exact HP].
      * now right.
    + left. exists 1. split; [lia|exact Hw].
  - intros [[a [Hr HP]]|HP].
    + destruct (Z.eq_dec a 1) as [->|Hne]; [now right|].
      left. exists a. apply (Permutation_map aceHigh) in HP.
      simpl in HP. rewrite !aceHigh_id in HP by lia. exact HP.
    + left. exists 10. apply (Permutation_map aceHigh) in HP. exact HP.
Qed.

(** ** Further properties of the function *)

(** X1.  For any hand the map built by the counting loop lists the
    distinct ranks in the order they first appear, each with the number
    of cards of that rank. *)
Theorem rankCounts_closed_form hand :
  rankCounts hand =
  map (fun k => (k, occurrences (ranks hand) k)) (Set_of (ranks hand)) /\
  NoDup (Set_of (ranks hand)) /\
  (forall k, In k (Set_of (ranks hand)) <-> In k (ranks hand)).
Proof.
  split; [|split].
  - rewrite <- rankCounts_keys. apply rankCounts_entries.
  - rewrite <- rankCounts_keys. apply rankCounts_NoDup.
  - intros k. apply Set_of_In.
Qed.

(** X2.  Looking a rank up in the map gives the number of cards of that
    rank, and nothing for a rank the hand does not hold. *)
Theorem rankCounts_lookup hand k :
  Map_get (rankCounts hand) k =
  if occurrences (ranks hand) k =? 0 then None
  else Some (occurrences (ranks hand) k).
Proof.
  rewrite rankCounts_get.
  pose proof (occurrences_In (ranks hand) k) as H.
  pose proof (occurrences_nonneg (ranks hand) k) as H0.
  destruct (in_dec Z.eq_dec k (ranks hand)) as [Hin|Hin],
           (Z.eqb_spec (occurrences (ranks hand) k) 0) as [E|E];
    try reflexivity.
  - apply H in Hin. lia.
  - exfalso. apply Hin, H. lia.
Qed.

(** X3.  For a hand of any size [hasFour] holds exactly when some rank is
    held four times and none more often, and [hasThree] exactly when some
    rank is held three times and none more often. *)
Theorem most_frequent_rank hand :
  (hasFour hand = true <->
   hasRankCount hand 4 /\ forall k, occurrences (ranks hand) k <= 4) /\
  (hasThree hand = true <->
   hasRankCount hand 3 /\ forall k, occurrences (ranks hand) k <= 3).
Proof. split; apply largest_count; lia. Qed.

(** X4.  For a hand of any size [numPairs] is the number of distinct
    ranks held by exactly two cards. *)
Theorem numPairs_distinct_ranks hand :
  numPairs hand =
  length (filter (fun k => occurrences (ranks hand) k =? 2) (Set_of (ranks hand))).
Proof. rewrite <- rankCounts_keys. apply numPairs_keys. Qed.

(** X5.  For a hand of any size the wheel flag is set exactly when the
    hand has at most five cards and its ranks are 1, 2, ... up to the
    number of cards; in particular never for more than five cards and
    always for the empty hand. *)
Theorem wheelStraight_any_size hand :
  wheelStraight hand = true <->
  (length hand <= 5)%nat /\
  Permutation (ranks hand) (firstn (length hand) wheelPattern).
Proof. apply wheelStraight_ranks. Qed.

(** X6.  A hand of fewer than five cards is a straight exactly when its
    ranks are 1, 2, ... up to the number of cards, and it then classifies
    as "straightflush" when all suits agree and as "straight" otherwise;
    the empty hand is a "straightflush". *)
Theorem short_hand_straight hand :
  (length hand < 5)%nat ->
  (isStraight hand = true <->
   Permutation (ranks hand) (firstn (length hand) wheelPattern)) /\
  (isStraight hand = true ->
   evaluatePokerHand hand =
   if isFlush hand then "straightflush" else "straight").
Proof.
  intros Hlen.
  assert (Hace : (length (uniqueAceHigh hand) =? 5)%nat = false).
  { apply Nat.eqb_neq. pose proof (uniqueAceHigh_length hand). lia. }
  assert (HS : isStraight hand = wheelStraight hand).
  { unfold isStraight. now rewrite Hace. }
  split.
  - rewrite HS, wheelStraight_ranks. split; [tauto | intros H; split; [lia | exact H]].
  - intros H. rewrite HS in H.
    assert (Hnd : NoDup (ranks hand)).
    { apply wheelStraight_ranks in H as [_ HP].
      apply (Permutation_NoDup (Permutation_sym HP)), firstn_wheel_NoDup. }
    destruct (NoDup_flags hand Hnd) as (E4 & E3 & _).
    unfold evaluatePokerHand, straightHigh.
    rewrite HS, H, E4, E3. simpl.
    destruct (isFlush hand); reflexivity.
Qed.

Lemma short_hand_straight_witness :
  (length (@nil Card) < 5)%nat /\
  isStraight [] = true /\
  evaluatePokerHand [] = "straightflush".
Proof.
  assert (Hlen : (length (@nil Card) < 5)%nat) by (simpl; lia).
  split; [exact Hlen|]. split; [reflexivity|].
  exact (proj2 (short_hand_straight [] Hlen) eq_refl).
Defined.

(** X7.  A five-card hand that is a straight has five different ranks,
    so it is never four of a kind, never three of a kind and has no
    pair: of the flags of the resolver only [isFlush] can hold besides
    [isStraight]. *)
Theorem straight_distinct_ranks hand :
  length hand = 5%nat ->
  isStraight hand = true ->
  NoDup (ranks hand) /\
  hasFour hand = false /\ hasThree hand = false /\ numPairs hand = 0%nat.
Proof.
  intros Hlen HS. apply (isStraight_shape _ Hlen) in HS.
  apply straightShape_NoDup in HS. split; [exact HS | now apply NoDup_flags].
Qed.

Lemma straight_distinct_ranks_witness :
  length wheel_mixed = 5%nat /\
  isStraight wheel_mixed = true /\
  NoDup (ranks wheel_mixed) /\
  hasFour wheel_mixed = false /\ hasThree wheel_mixed = false /\
  numPairs wheel_mixed = 0%nat.
Proof.
  split; [reflexivity|]. split; [reflexivity|].
  exact (straight_distinct_ranks wheel_mixed eq_refl eq_refl).
Defined.

(** X8.  On five cards with ranks between 1 and 13 [isStraight] holds
    exactly for the ten runs of a real deck: A-2-3-4-5 up to
    9-10-J-Q-K, and 10-J-Q-K-A.  A run that wraps around the ace, such
    as Q-K-A-2-3, is not a straight. *)
Theorem standard_straights hand :
  length hand = 5%nat ->
  realRanks hand ->
  (isStraight hand = true <->
   (exists a, 1 <= a <= 9 /\
      Permutation (ranks hand) [a; a + 1; a + 2; a + 3; a + 4])
   \/ Permutation (ranks hand) [10; 11; 12; 13; 1]).
Proof.
  intros Hlen Hwf. rewrite (isStraight_shape _ Hlen). now apply straightShape_real.
Qed.

Lemma royal_spades_real : realRanks royal_spades.
Proof.
  intros card Hin. simpl in Hin.
  repeat (destruct Hin as [<-|Hin]; [simpl; lia|]). destruct Hin.
Qed.

Lemma standard_straights_witness :
  length royal_spades = 5%nat /\
  realRanks royal_spades /\
  (isStraight royal_spades = true <->
   (exists a, 1 <= a <= 9 /\
      Permutation (ranks royal_spades) [a; a + 1; a + 2; a + 3; a + 4])
   \/ Permutation (ranks royal_spades) [10; 11; 12; 13; 1]).
Proof.
  split; [reflexivity|]. split; [exact royal_spades_real|].
  exact (standard_straights royal_spades eq_refl royal_spades_real).
Defined.

(** X9.  On five cards: the result is "royalflush" exactly when all
    suits agree and the ranks, the ace read as 14, are 10, 11, 12, 13,
    14.  A card of rank 14 counts as an ace here. *)
Theorem royalflush_iff hand :
  length hand = 5%nat ->
  (evaluatePokerHand hand = "royalflush" <->
   isFlush hand = true /\ royalRanks hand).
Proof. intros Hlen. by_flags hand Hlen. Qed.

Lemma royalflush_iff_witness :
  length royal_spades = 5%nat /\
  (evaluatePokerHand royal_spades = "royalflush" <->
   isFlush royal_spades = true /\ royalRanks royal_spades).
Proof.
  split; [reflexivity | apply (royalflush_iff royal_spades); reflexivity].
Defined.

(** X10.  On five cards with ranks between 1 and 13 the result is
    "royalflush" exactly when all suits agree and the ranks are 10, jack,
    queen, king and ace. *)
Theorem royalflush_real_deck hand :
  length hand = 5%nat ->
  realRanks hand ->
  (evaluatePokerHand hand = "royalflush" <->
   isFlush hand = true /\ Permutation (ranks hand) [10; 11; 12; 13; 1]).
Proof.
  intros Hlen Hwf. rewrite <- (royalRanks_real hand Hwf). by_flags hand Hlen.
Qed.

Lemma royalflush_real_deck_witness :
  length royal_spades = 5%nat /\
  realRanks royal_spades /\
  (evaluatePokerHand royal_spades = "royalflush" <->
   isFlush royal_spades = true /\
   Permutation (ranks royal_spades) [10; 11; 12; 13; 1]).
Proof.
  split; [reflexivity|]. split; [exact royal_spades_real|].
  exact (royalflush_real_deck royal_spades eq_refl royal_spades_real).
Defined.

(** X11.  On five cards: the result is "straightflush" exactly when all
    suits agree and the ranks form a straight other than 10 to ace. *)
Theorem straightflush_iff hand :
  length hand = 5%nat ->
  (evaluatePokerHand hand = "straightflush" <->
   isFlush hand = true /\ straightShape hand /\ ~ royalRanks hand).
Proof. intros Hlen. by_flags hand Hlen. Qed.

Lemma straightflush_iff_witness :
  length wheel_clubs = 5%nat /\
  (evaluatePokerHand wheel_clubs = "straightflush" <->
   isFlush wheel_clubs = true /\ straightShape wheel_clubs /\ ~ royalRanks wheel_clubs).
Proof.
  split; [reflexivity | apply (straightflush_iff wheel_clubs); reflexivity].
Defined.

(** X12.  On five cards: the result is "fourofakind" exactly when some
    rank is held by exactly four cards, whatever the suits. *)
Theorem fourofakind_iff hand :
  length hand = 5%nat ->
  (evaluatePokerHand hand = "fourofakind" <-> hasRankCount hand 4).
Proof. intros Hlen. by_flags hand Hlen. Qed.

Lemma fourofakind_iff_witness :
  length quad_sevens = 5%nat /\
  (evaluatePokerHand quad_sevens = "fourofakind" <->
   hasRankCount quad_sevens 4).
Proof.
  split; [reflexivity | apply (fourofakind_iff quad_sevens); reflexivity].
Defined.

(** X13.  On five cards: the result is "fullhouse" exactly when one rank
    is held three times and another twice, whatever the suits. *)
Theorem fullhouse_iff hand :
  length hand = 5%nat ->
  (evaluatePokerHand hand = "fullhouse" <->
   hasRankCount hand 3 /\ hasRankCount hand 2).
Proof. intros Hlen. by_flags hand Hlen. Qed.

Lemma fullhouse_iff_witness :
  length kings_full = 5%nat /\
  (evaluatePokerHand kings_full = "fullhouse" <->
   hasRankCount kings_full 3 /\ hasRankCount kings_full 2).
Proof.
  split; [reflexivity | apply (fullhouse_iff kings_full); reflexivity].
Defined.

(** X14.  On five cards: the result is "flush" exactly when all suits
    agree and the hand is no straight, holds no rank four times and is
    no full house; a same-suit hand with a repeated rank is a flush, not
    a pair. *)
Theorem flush_iff hand :
  length hand = 5%nat ->
  (evaluatePokerHand hand = "flush" <->
   isFlush hand = true /\ ~ straightShape hand /\ ~ hasRankCount hand 4 /\
   ~ (hasRankCount hand 3 /\ hasRankCount hand 2)).
Proof. intros Hlen. by_flags hand Hlen. Qed.

Lemma flush_iff_witness :
  length mixed_case_clubs = 5%nat /\
  (evaluatePokerHand mixed_case_clubs = "flush" <->
   isFlush mixed_case_clubs = true /\ ~ straightShape mixed_case_clubs /\ ~ hasRankCount mixed_case_clubs 4 /\
   ~ (hasRankCount mixed_case_clubs 3 /\ hasRankCount mixed_case_clubs 2)).
Proof.
  split; [reflexivity | apply (flush_iff mixed_case_clubs); reflexivity].
Defined.

(** X15.  On five cards: the result is "straight" exactly when the ranks
    form a straight and not all suits agree. *)
Theorem straight_iff hand :
  length hand = 5%nat ->
  (evaluatePokerHand hand = "straight" <->
   straightShape hand /\ isFlush hand = false).
Proof. intros Hlen. by_flags hand Hlen. Qed.

Lemma straight_iff_witness :
  length wheel_mixed = 5%nat /\
  (evaluatePokerHand wheel_mixed = "straight" <->
   straightShape wheel_mixed /\ isFlush wheel_mixed = false).
Proof.
  split; [reflexivity | apply (straight_iff wheel_mixed); reflexivity].
Defined.

(** X16.  On five cards: the result is "threeofakind" exactly when not
    all suits agree, some rank is held three times and none twice. *)
Theorem threeofakind_iff hand :
  length hand = 5%nat ->
  (evaluatePokerHand hand = "threeofakind" <->
   isFlush hand = false /\ hasRankCount hand 3 /\ ~ hasRankCount hand 2).
Proof. intros Hlen. by_flags hand Hlen. Qed.

Lemma threeofakind_iff_witness :
  length trip_nines = 5%nat /\
  (evaluatePokerHand trip_nines = "threeofakind" <->
   isFlush trip_nines = false /\ hasRankCount trip_nines 3 /\ ~ hasRankCount trip_nines 2).
Proof.
  split; [reflexivity | apply (threeofakind_iff trip_nines); reflexivity].
Defined.

(** X17.  On five cards: the result is "twopair" exactly when not all
    suits agree and two different ranks are each held twice. *)
Theorem twopair_iff hand :
  length hand = 5%nat ->
  (evaluatePokerHand hand = "twopair" <->
   isFlush hand = false /\ twoPairRanks hand).
Proof. intros Hlen. by_flags hand Hlen. Qed.

Lemma twopair_iff_witness :
  length fours_and_nines = 5%nat /\
  (evaluatePokerHand fours_and_nines = "twopair" <->
   isFlush fours_and_nines = false /\ twoPairRanks fours_and_nines).
Proof.
  split; [reflexivity | apply (twopair_iff fours_and_nines); reflexivity].
Defined.

(** X18.  On five cards: the result is "pair" exactly when not all suits
    agree, some rank is held twice, none three times, and no second rank
    is held twice. *)
Theorem pair_iff hand :
  length hand = 5%nat ->
  (evaluatePokerHand hand = "pair" <->
   isFlush hand = false /\ hasRankCount hand 2 /\
   ~ hasRankCount hand 3 /\ ~ twoPairRanks hand).
Proof. intros Hlen. by_flags hand Hlen. Qed.

Lemma pair_iff_witness :
  length pair_of_aces = 5%nat /\
  (evaluatePokerHand pair_of_aces = "pair" <->
   isFlush pair_of_aces = false /\ hasRankCount pair_of_aces 2 /\
   ~ hasRankCount pair_of_aces 3 /\ ~ twoPairRanks pair_of_aces).
Proof.
  split; [reflexivity | apply (pair_iff pair_of_aces); reflexivity].
Defined.

(** X19.  On five cards: the result is "highcard" exactly when not all
    suits agree, the ranks form no straight and no rank is held two,
    three or four times. *)
Theorem highcard_iff hand :
  length hand = 5%nat ->
  (evaluatePokerHand hand = "highcard" <->
   isFlush hand = false /\ ~ straightShape hand /\
   ~ hasRankCount hand 2 /\ ~ hasRankCount hand 3 /\ ~ hasRankCount hand 4).
Proof. intros Hlen. by_flags hand Hlen. Qed.

Lemma highcard_iff_witness :
  length king_high = 5%nat /\
  (evaluatePokerHand king_high = "highcard" <->
   isFlush king_high = false /\ ~ straightShape king_high /\
   ~ hasRankCount king_high 2 /\ ~ hasRankCount king_high 3 /\ ~ hasRankCount king_high 4).
Proof.
  split; [reflexivity | apply (highcard_iff king_high); reflexivity].
Defined.

(** X20.  Five cards of one rank are neither four nor three of a kind:
    the hand classifies as "flush" when all suits agree and as "highcard"
    otherwise. *)
Theorem five_of_a_kind hand r :
  length hand = 5%nat ->
  (forall card, In card hand -> rank card = r) ->
  evaluatePokerHand hand = if isFlush hand then "flush" else "highcard".
Proof.
  intros Hlen Hall.
  assert (Hr : ranks hand = repeat r 5).
  { unfold ranks. rewrite <- Hlen.
    clear Hlen. induction hand as [|c hand IH]; simpl; [reflexivity|].
    rewrite (Hall c (or_introl eq_refl)), IH; [reflexivity|].
    intros card Hin. apply Hall. now right. }
  assert (Hocc : forall k, occurrences (ranks hand) k = 5 \/ occurrences (ranks hand) k = 0).
  { intros k. rewrite Hr. unfold occurrences.
    destruct (Z.eq_dec k r) as [->|Hne].
    - left. now rewrite count_occ_repeat_eq.
    - right. now rewrite count_occ_repeat_neq. }
  assert (Hno : forall n, 1 <= n <= 4 -> ~ hasRankCount hand n).
  { intros n Hn [k Hk]. destruct (Hocc k); lia. }
  destruct (five_card_flags hand Hlen) as (FS & F4 & F3 & FP1 & FP2 & XS & _).
  assert (ES : isStraight hand = false).
  { destruct (isStraight hand); [|reflexivity].
    exfalso. assert (HS : straightShape hand) by now apply FS.
    apply straightShape_NoDup in HS. rewrite Hr in HS.
    inversion HS as [|? ? Hn _]. apply Hn. now left. }
  assert (E4 : hasFour hand = false).
  { destruct (hasFour hand); [|reflexivity].
    exfalso. apply (Hno 4); [lia | now apply F4]. }
  assert (E3 : hasThree hand = false).
  { destruct (hasThree hand); [|reflexivity].
    exfalso. apply (Hno 3); [lia | now apply F3]. }
  assert (EP1 : (numPairs hand =? 1)%nat = false).
  { destruct (numPairs hand =? 1)%nat; [|reflexivity].
    exfalso. apply (Hno 2); [lia | now apply FP1]. }
  assert (EP2 : (numPairs hand =? 2)%nat = false).
  { destruct (numPairs hand =? 2)%nat; [|reflexivity].
    exfalso. apply (Hno 2); [lia|].
    destruct (proj1 FP2 eq_refl) as (a & b & _ & Ha & _). now exists a. }
  unfold evaluatePokerHand. rewrite ES, E4, E3, EP1, EP2. simpl.
  destruct (isFlush hand); reflexivity.
Qed.

Lemma five_sevens_one_rank : forall card, In card five_sevens -> rank card = 7.
Proof.
  intros card Hin. simpl in Hin.
  repeat (destruct Hin as [<-|Hin]; [reflexivity|]). destruct Hin.
Qed.

Lemma five_of_a_kind_witness :
  length five_sevens = 5%nat /\
  (forall card, In card five_sevens -> rank card = 7) /\
  evaluatePokerHand five_sevens = "highcard".
Proof.
  split; [reflexivity|]. split; [exact five_sevens_one_rank|].
  exact (five_of_a_kind five_sevens 7 eq_refl five_sevens_one_rank).
Defined.
